(** * Record reconciliation engine of the Excel comparison tool (src/app.py)

    A shallow embedding of the matching core of [ExcelComparisonTool]:
    [clean_name], [find_match_for_value], the row loop of [process_data],
    and the whole-column [replace_entire_column] / [undo_replace_column]
    facility, followed by the properties the specification states about
    them.

    Modelling conventions.
    - A Python [str] is a Rocq [string]; a character is read as the code
      point U+0000..U+00FF with Python's Unicode classification of it.
    - Tables are loaded with [dtype=str], so a loaded cell is a [str] or is
      missing (NaN).  A row is a finite map from column names to the cells
      that are present; a missing cell is an absent key.
    - Python floats (confidences, percentages) are idealised as rationals.
    - [difflib] is not part of the program; its two entry points are the
      fields of the class [Difflib]. *)

From Stdlib Require Import Ascii QArith Qabs.
From stdpp Require Import base gmap strings list fin_maps pretty sorting.

Local Open Scope Q_scope.
Local Open Scope stdpp_scope.

(* ===================================================================== *)
(** * Characters and strings, as the Python built-ins see them           *)
(* ===================================================================== *)

Module Py.

Definition code (c : ascii) : N := N_of_ascii c.

Definition between (lo hi : N) (c : ascii) : bool :=
  (lo <=? code c)%N && (code c <=? hi)%N.

(** [str.isspace], the class [\s] of [re] on [str], and the characters
    [str.strip()] removes: TAB..CR, FS..US, SPACE, NEL, NBSP. *)
Definition isspace (c : ascii) : bool :=
  between 9 13 c || between 28 32 c || (code c =? 133)%N || (code c =? 160)%N.

(** Alphabetic characters below U+0100. *)
Definition isalpha (c : ascii) : bool :=
  between 65 90 c || between 97 122 c
  || (code c =? 170)%N || (code c =? 181)%N || (code c =? 186)%N
  || between 192 214 c || between 216 246 c || between 248 255 c.

(** Decimal digits, superscript digits and vulgar fractions. *)
Definition isnumeric (c : ascii) : bool :=
  between 48 57 c
  || (code c =? 178)%N || (code c =? 179)%N || (code c =? 185)%N
  || between 188 190 c.

(** The class [\w] of [re] on [str]: alphanumeric or the underscore. *)
Definition isword (c : ascii) : bool :=
  isalpha c || isnumeric c || (code c =? 95)%N.

Definition isupper (c : ascii) : bool :=
  between 65 90 c || between 192 214 c || between 216 222 c.

Definition lower_char (c : ascii) : ascii :=
  if isupper c then ascii_of_N (code c + 32) else c.

(** [str.lower()]. *)
Fixpoint lower (s : string) : string :=
  match s with
  | EmptyString => EmptyString
  | String c s' => String (lower_char c) (lower s')
  end.

Fixpoint lstrip (s : string) : string :=
  match s with
  | EmptyString => EmptyString
  | String c s' => if isspace c then lstrip s' else s
  end.

Fixpoint rstrip (s : string) : string :=
  match s with
  | EmptyString => EmptyString
  | String c s' =>
      match rstrip s' with
      | EmptyString => if isspace c then EmptyString else String c EmptyString
      | t => String c t
      end
  end.

(** [str.strip()] with no argument. *)
Definition strip (s : string) : string := lstrip (rstrip s).

(** [re.sub(r'\s+', ' ', s)]: every maximal run of whitespace becomes one
    space.  [in_run] tells that the previous character was whitespace. *)
Fixpoint sub_ws_runs (in_run : bool) (s : string) : string :=
  match s with
  | EmptyString => EmptyString
  | String c s' =>
      if isspace c
      then (if in_run then sub_ws_runs true s'
            else String " "%char (sub_ws_runs true s'))
      else String c (sub_ws_runs false s')
  end.

(** The characters the class [[^\w\s\-]] does not match. *)
Definition kept (c : ascii) : bool :=
  isword c || isspace c || (code c =? 45)%N.

(** [re.sub(r'[^\w\s\-]', '', s)]. *)
Fixpoint sub_special (s : string) : string :=
  match s with
  | EmptyString => EmptyString
  | String c s' => if kept c then String c (sub_special s') else sub_special s'
  end.

(** [c in s] for a one-character string [c]. *)
Fixpoint contains (d : ascii) (s : string) : bool :=
  match s with
  | EmptyString => false
  | String c s' => if decide (c = d) then true else contains d s'
  end.

(** [s.split(d)] for a one-character separator: never the empty list. *)
Fixpoint split (d : ascii) (s : string) : list string :=
  match s with
  | EmptyString => [EmptyString]
  | String c s' =>
      if decide (c = d) then EmptyString :: split d s'
      else match split d s' with
           | [] => [String c EmptyString]
           | x :: xs => String c x :: xs
           end
  end.

(** [d.join(l)]. *)
Fixpoint join (d : string) (l : list string) : string :=
  match l with
  | [] => EmptyString
  | [x] => x
  | x :: l' => x +:+ d +:+ join d l'
  end.

(** The characters of a string, to state properties of all of them. *)
Fixpoint chars (s : string) : list ascii :=
  match s with
  | EmptyString => []
  | String c s' => c :: chars s'
  end.

(** [s.startswith(p)]. *)
Fixpoint startswith (p s : string) : bool :=
  match p, s with
  | EmptyString, _ => true
  | String a p', String b s' => bool_decide (a = b) && startswith p' s'
  | String _ _, EmptyString => false
  end.

(** [p in s] for strings: [p] occurs in [s] at some position. *)
Fixpoint contains_str (p s : string) : bool :=
  startswith p s
  || match s with
     | EmptyString => false
     | String _ s' => contains_str p s'
     end.

End Py.

(* ===================================================================== *)
(** * Normalizer: [clean_name]                                            *)
(* ===================================================================== *)

(** [clean_name(self, name)].  [None] is a missing value, for which
    [pd.isna(name) or name is None] holds. *)
Definition clean_name (name : option string) : string :=
  match name with
  | None => ""
  | Some name =>
      let name := Py.strip name in
      let name := Py.lower (Py.sub_ws_runs false name) in
      Py.sub_special name
  end.


(* ===================================================================== *)
(** * Tables                                                              *)
(* ===================================================================== *)

(** Exceptions the modelled code can raise. *)
Inductive exn :=
| ValueError (msg : string)
| KeyError (key : string)
| TypeError.

Inductive result (A : Type) :=
| Ok (a : A)
| Raise (e : exn).
Arguments Ok {A} a.
Arguments Raise {A} e.

(** A cell of the working target table: a string, or the float stored in
    the [Confidence] column. *)
Inductive value :=
| Str (s : string)
| Float (q : Q).

(** A [pandas.DataFrame] with a default [RangeIndex]: its column labels in
    display order and its rows in index order. *)
Record DataFrame (V : Type) := mkDataFrame {
  columns : list string;
  rows : list (gmap string V)
}.
Arguments mkDataFrame {V} columns rows.
Arguments columns {V} d.
Arguments rows {V} d.

Module DF.
Section frame.
Context {V : Type}.

(** [len(df)]. *)
Definition len (df : DataFrame V) : nat := length (rows df).

(** The labels after an assignment to column [col]: a new label is
    appended. *)
Definition add_column (col : string) (cols : list string) : list string :=
  if decide (col ∈ cols) then cols else cols ++ [col].

(** [df.at[idx, col] = v] on the row with index [idx]; [None] is NaN. *)
Definition set_cell (col : string) (v : option V) (r : gmap string V)
  : gmap string V :=
  partial_alter (λ _, v) col r.

(** [df[col]]: the column as a list aligned with the rows, or [KeyError]. *)
Definition get_column (col : string) (df : DataFrame V)
  : option (list (option V)) :=
  if decide (col ∈ columns df) then Some ((λ r, r !! col) <$> rows df)
  else None.

(** [df[col] = v] for a scalar [v]. *)
Definition set_column_scalar (col : string) (v : V) (df : DataFrame V)
  : DataFrame V :=
  {| columns := add_column col (columns df);
     rows := (λ r, <[col := v]> r) <$> rows df |}.

(** [df[col] = series]: aligned on the index, rows the series does not
    cover get NaN. *)
Definition set_column (col : string) (series : list (option V))
    (df : DataFrame V) : DataFrame V :=
  {| columns := add_column col (columns df);
     rows := imap (λ i r, set_cell col (mjoin (series !! i)) r) (rows df) |}.

(** [df.drop(columns=[c for c in cols if c in df.columns])]. *)
Definition drop (cols : list string) (df : DataFrame V) : DataFrame V :=
  {| columns := filter (λ c, c ∉ cols) (columns df);
     rows := (λ r, foldr delete r (filter (λ c, c ∈ columns df) cols))
             <$> rows df |}.

(** [row.get(key, default)] on a row of [df]. *)
Definition series_get (df : DataFrame V) (r : gmap string V)
    (key : string) (default : V) : option V :=
  if decide (key ∈ columns df) then r !! key else Some default.

(** [df[[col]]] for a label of [df]: the frame with that one column. *)
Definition select (col : string) (df : DataFrame V) : DataFrame V :=
  {| columns := [col];
     rows := (λ r, from_option (λ v, {[ col := v ]}) ∅ (r !! col)) <$> rows df |}.

(** [df.head(n)]. *)
Definition head (n : nat) (df : DataFrame V) : DataFrame V :=
  {| columns := columns df; rows := take n (rows df) |}.
End frame.

(** [df[new] = df[src].apply(clean_name)], or [KeyError] for [src]. *)
Definition with_clean_column (new src : string) (df : DataFrame string)
  : option (DataFrame string) :=
  if decide (src ∈ columns df)
  then Some {| columns := add_column new (columns df);
               rows := (λ r, <[new := clean_name (r !! src)]> r) <$> rows df |}
  else None.

(** The loaded cells seen as cells of the working table. *)
Definition to_values (df : DataFrame string) : DataFrame value :=
  {| columns := columns df;
     rows := (λ r : gmap string string, Str <$> r) <$> rows df |}.
End DF.

(* ===================================================================== *)
(** * Application state                                                  *)
(* ===================================================================== *)

(** The attributes of [ExcelComparisonTool] the engine reads or writes.
    Tk variables are modelled by their current value. *)
Record app := mkApp {
  master_df : option (DataFrame string);
  secondary_df : option (DataFrame string);
  secondary_work : option (DataFrame value);
  selected_reference_primary : string;
  selected_target_columns : list string;
  selected_replace_columns : list string;
  selected_data_source : string;
  fuzzy_matching : bool;
  similarity_threshold : Q;
  enable_multivalue : bool;
  target_delimiter : string;
  preserve_structure : bool;
  replace_col_combo : string;
  replace_col_value : string;
  undo_col_data : option (list (option value));
  undo_col_name : option string
}.

Definition set_secondary_work (w : option (DataFrame value)) (self : app) : app :=
  mkApp (master_df self) (secondary_df self) w
        (selected_reference_primary self) (selected_target_columns self)
        (selected_replace_columns self) (selected_data_source self)
        (fuzzy_matching self) (similarity_threshold self)
        (enable_multivalue self) (target_delimiter self)
        (preserve_structure self) (replace_col_combo self)
        (replace_col_value self) (undo_col_data self) (undo_col_name self).

Definition set_undo (data : option (list (option value))) (name : option string)
    (self : app) : app :=
  mkApp (master_df self) (secondary_df self) (secondary_work self)
        (selected_reference_primary self) (selected_target_columns self)
        (selected_replace_columns self) (selected_data_source self)
        (fuzzy_matching self) (similarity_threshold self)
        (enable_multivalue self) (target_delimiter self)
        (preserve_structure self) (replace_col_combo self)
        (replace_col_value self) data name.

(** [self.secondary_df = df], as [load_files] assigns it (line 1194); the
    selections stay. *)
Definition set_secondary_df (df : option (DataFrame string)) (self : app) : app :=
  mkApp (master_df self) df (secondary_work self)
        (selected_reference_primary self) (selected_target_columns self)
        (selected_replace_columns self) (selected_data_source self)
        (fuzzy_matching self) (similarity_threshold self)
        (enable_multivalue self) (target_delimiter self)
        (preserve_structure self) (replace_col_combo self)
        (replace_col_value self) (undo_col_data self) (undo_col_name self).

(* ===================================================================== *)
(** * Matcher                                                             *)
(* ===================================================================== *)

(** The two functions of [difflib] the matcher calls:
    [get_close_matches(word, possibilities, n=1, cutoff)] and
    [SequenceMatcher(None, a, b).ratio()]. *)
Class Difflib := {
  get_close_matches : string → list string → Q → list string;
  SequenceMatcher_ratio : string → string → Q
}.

(** The dictionary [find_match_for_value] returns. *)
Record match_result := mkMatchResult {
  fm_type : string;
  fm_matched_name : option string;
  fm_confidence : Q;
  fm_data_value : option string
}.

(** An entry of [matches_found]. *)
Record match_info := mkMatchInfo {
  type : string;
  matched_name : option string;
  confidence : Q;
  column : string;
  data_value : option string
}.

(** [master_work[master_work['clean_reference'] == key]]. *)
Definition where_clean_reference (master_work : DataFrame string) (key : string)
  : list (gmap string string) :=
  filter (λ r, r !! "clean_reference" = Some key) (rows master_work).

(** [master_work['clean_reference'].dropna().tolist()]. *)
Definition master_names (master_work : DataFrame string) : list string :=
  omap (λ r, r !! "clean_reference") (rows master_work).

Section matcher.
Context `{Difflib}.

(** The fuzzy step, written twice in the source (lines 1906-1930 and
    2152-2175): the closest reference key at or above the threshold, the
    first record carrying it, and the similarity ratio to it. *)
Definition fuzzy_step (self : app) (target_clean_name : string)
    (master_work : DataFrame string) (reference_primary data_source : string)
  : option match_result :=
  match master_names master_work with
  | [] => None
  | names =>
      match get_close_matches target_clean_name names (similarity_threshold self) with
      | [] => None
      | matched_clean_name :: _ =>
          match where_clean_reference master_work matched_clean_name with
          | [] => None
          | r :: _ =>
              Some {| fm_type := "FUZZY";
                      fm_matched_name := r !! reference_primary;
                      fm_confidence :=
                        SequenceMatcher_ratio target_clean_name matched_clean_name;
                      fm_data_value := DF.series_get master_work r data_source "" |}
          end
      end
  end.

(** [find_match_for_value(self, target_value, master_work,
    reference_primary, data_source, exact_only, fuzzy_only)]. *)
Definition find_match_for_value (self : app) (target_value : string)
    (master_work : DataFrame string) (reference_primary data_source : string)
    (exact_only fuzzy_only : bool) : option match_result :=
  let target_clean_name := clean_name (Some target_value) in
  if decide (target_clean_name = "") then None
  else
    match (if fuzzy_only then []
           else where_clean_reference master_work target_clean_name) with
    | r :: _ =>
        Some {| fm_type := "EXACT";
                fm_matched_name := r !! reference_primary;
                fm_confidence := 1;
                fm_data_value := DF.series_get master_work r data_source "" |}
    | [] =>
        if negb exact_only && fuzzy_matching self
        then fuzzy_step self target_clean_name master_work
                        reference_primary data_source
        else None
    end.
End matcher.

(* ===================================================================== *)
(** * ValueSplitter and ColumnReconciler                                  *)
(* ===================================================================== *)

(** [delimiters_to_check = [',', ';', '|']] (line 1838). *)
Definition delimiters_to_check : list ascii := [","; ";"; "|"]%char.

(** The [for delim in ...: if delim in target_str: ...; break] loop. *)
Fixpoint first_delimiter (delims : list ascii) (target_str : string)
  : option ascii :=
  match delims with
  | [] => None
  | delim :: rest =>
      if Py.contains delim target_str then Some delim
      else first_delimiter rest target_str
  end.

(** [[val.strip() for val in target_str.split(d) if val.strip()]]. *)
Definition split_values (d : ascii) (target_str : string) : list string :=
  filter (λ v, v ≠ "") (Py.strip <$> Py.split d target_str).

(** [d.join(items)]; an item that is not a [str] raises [TypeError]. *)
Definition join_cells (d : string) (items : list (option string)) : result string :=
  match mapM id items with
  | Some strs => Ok (Py.join d strs)
  | None => Raise TypeError
  end.

Definition with_column (target_col : string) (m : match_result) : match_info :=
  {| type := fm_type m; matched_name := fm_matched_name m;
     confidence := fm_confidence m; column := target_col;
     data_value := fm_data_value m |}.

Section reconciler.
Context `{Difflib}.
Variable self : app.
Variable master_work : DataFrame string.
Variables reference_primary data_source : string.

(** The loop over [target_values] (lines 1855-1866), appending to
    [matched_results] and [match_types]. *)
Definition match_sub_values (target_values : list string)
  : list (option string) * list string :=
  foldl (λ '(matched_results, match_types) target_val,
           match find_match_for_value self target_val master_work
                   reference_primary data_source false false with
           | Some match_result =>
               (matched_results ++ [fm_data_value match_result],
                match_types ++ [fm_type match_result])
           | None =>
               (matched_results ++ [Some "match unfound"],
                match_types ++ ["NONE"])
           end)
        ([], []) target_values.

(** The entry stored for a multi-valued field (lines 1868-1885). *)
Definition combine_sub_values (target_col : string) (actual_delimiter : ascii)
    (target_values : list string)
    (matched_results : list (option string)) (match_types : list string)
  : result match_info :=
  match join_cells (String actual_delimiter "") matched_results with
  | Raise e => Raise e
  | Ok combined_data_value =>
      let has_exact := bool_decide ("EXACT" ∈ match_types) in
      let has_fuzzy := bool_decide ("FUZZY" ∈ match_types) in
      let match_count :=
        length (filter (λ r, r ≠ Some "match unfound") matched_results) in
      Ok {| type := if has_exact then "EXACT"
                    else if has_fuzzy then "FUZZY" else "REVIEW";
            matched_name :=
              Some ("Multi-value: " +:+ pretty match_count +:+ "/"
                    +:+ pretty (length target_values) +:+ " matched");
            confidence := if has_exact then 1
                          else if has_fuzzy then 8 # 10 else 0;
            column := target_col;
            data_value := Some combined_data_value |}
  end.

(** Multi-value processing (lines 1835-1886).  [None]: the field falls
    through to single-value processing. *)
Definition multi_value_match (target_col target_str : string)
  : option (result match_info) :=
  match first_delimiter delimiters_to_check target_str with
  | None => None
  | Some actual_delimiter =>
      let target_values := split_values actual_delimiter target_str in
      if decide (1 < length target_values)%nat then
        let '(matched_results, match_types) := match_sub_values target_values in
        match matched_results with
        | [] => None
        | _ => Some (combine_sub_values target_col actual_delimiter
                       target_values matched_results match_types)
        end
      else None
  end.

(** Single-value processing (lines 1888-1930). *)
Definition single_value_match (target_col target_value : string)
  : option match_info :=
  let target_clean_name := clean_name (Some target_value) in
  if decide (target_clean_name = "") then None
  else
    match where_clean_reference master_work target_clean_name with
    | r :: _ =>
        Some {| type := "EXACT";
                matched_name := r !! reference_primary;
                confidence := 1;
                column := target_col;
                data_value := DF.series_get master_work r data_source "" |}
    | [] =>
        if fuzzy_matching self
        then with_column target_col
               <$> fuzzy_step self target_clean_name master_work
                     reference_primary data_source
        else None
    end.

(** The body of the loop over the target columns (lines 1828-1930) for
    one column: the entry it stores in [matches_found], if any. *)
Definition match_column (target_col : string) (row : gmap string string)
  : result (option match_info) :=
  match row !! target_col with
  | None => Ok None
  | Some target_value =>
      if decide (Py.strip target_value = "") then Ok None
      else
        match (if enable_multivalue self
               then multi_value_match target_col target_value else None) with
        | Some (Ok m) => Ok (Some m)
        | Some (Raise e) => Raise e
        | None => Ok (single_value_match target_col target_value)
        end
  end.

(** [matches_found] for one row: the entries in insertion order, each
    with its key, the position of the target column. *)
Fixpoint collect_matches (i : nat) (target_columns : list string)
    (row : gmap string string) : result (list (nat * match_info)) :=
  match target_columns with
  | [] => Ok []
  | target_col :: rest =>
      match match_column target_col row with
      | Raise e => Raise e
      | Ok found =>
          match collect_matches (S i) rest row with
          | Raise e => Raise e
          | Ok later => Ok (from_option (λ m, [(i, m)]) [] found ++ later)
          end
      end
  end.
End reconciler.

(* ===================================================================== *)
(** * RowReconciler                                                       *)
(* ===================================================================== *)

Record stats := mkStats {
  exact_matches : nat;
  fuzzy_matches : nat;
  no_matches : nat
}.

(** [round(x, 3)] on the rational that idealises the float: the nearest
    multiple of 1/1000, an exact half going to the even neighbour. *)
Definition round3 (x : Q) : Q :=
  let n := (Qnum x * 1000)%Z in
  let d := Z.pos (Qden x) in
  let fl := (n / d)%Z in
  let r := (n mod d)%Z in
  let z := if (2 * r <? d)%Z then fl
           else if (d <? 2 * r)%Z then (fl + 1)%Z
           else if Z.even fl then fl else (fl + 1)%Z in
  z # 1000.

(** The replace column a result at position [target_idx] is written to
    (lines 1936-1938). *)
Definition replace_target (replace_columns work_columns : list string)
    (target_idx : nat) : option string :=
  match replace_columns !! target_idx with
  | Some replace_col =>
      if decide (replace_col ∈ work_columns) then Some replace_col else None
  | None => None
  end.

(** One iteration of the loop over [matches_found.items()] (line 1935). *)
Definition write_replace_column (replace_columns work_columns : list string)
    (r : gmap string value) (entry : nat * match_info) : gmap string value :=
  match replace_target replace_columns work_columns entry.1 with
  | Some replace_col => DF.set_cell replace_col (Str <$> data_value entry.2) r
  | None => r
  end.

(** [max(matches_found.values(), key=lambda x: x['confidence'])]: a later
    entry replaces the current maximum only when strictly greater. *)
Definition max_by_confidence (first : match_info) (rest : list match_info)
  : match_info :=
  foldl (λ best x, if Qlt_le_dec (confidence best) (confidence x) then x else best)
        first rest.

(** Lines 1933-1956 for the row with cells [r]: the row after the writes
    and the statistics after the increment. *)
Definition update_row (replace_columns work_columns : list string)
    (matches_found : list (nat * match_info))
    (r : gmap string value) (st : stats) : gmap string value * stats :=
  match matches_found with
  | first :: rest =>
      let r := foldl (write_replace_column replace_columns work_columns)
                     r matches_found in
      let best_match := max_by_confidence first.2 (snd <$> rest) in
      let r := DF.set_cell "Match_Type" (Some (Str (type best_match))) r in
      let r := DF.set_cell "Matched_Reference_Name"
                 (Str <$> matched_name best_match) r in
      let r := DF.set_cell "Confidence"
                 (Some (Float (round3 (confidence best_match)))) r in
      let r := DF.set_cell "Matched_Column" (Some (Str (column best_match))) r in
      (r, if decide (type best_match = "EXACT")
          then mkStats (S (exact_matches st)) (fuzzy_matches st) (no_matches st)
          else mkStats (exact_matches st) (S (fuzzy_matches st)) (no_matches st))
  | [] =>
      (DF.set_cell "Match_Type" (Some (Str "REVIEW")) r,
       mkStats (exact_matches st) (fuzzy_matches st) (S (no_matches st)))
  end.

(* ===================================================================== *)
(** * ReconciliationRun: [process_data]                                   *)
(* ===================================================================== *)

(** What a call of [process_data] reports: the statistics it logs, or the
    exception its handler shows. *)
Inductive run_outcome :=
| Completed (st : stats) (total_records : nat) (percentages : option (Q * Q * Q))
| Failed (e : exn).

(** [f'clean_target_{i}']. *)
Definition clean_target (i : nat) : string := "clean_target_" +:+ pretty i.

(** Lines 1805-1806; on [KeyError] the columns added so far stay. *)
Fixpoint add_clean_targets (i : nat) (target_columns : list string)
    (work : DataFrame string) : DataFrame string * option exn :=
  match target_columns with
  | [] => (work, None)
  | target_col :: rest =>
      match DF.with_clean_column (clean_target i) target_col work with
      | None => (work, Some (KeyError target_col))
      | Some work' => add_clean_targets (S i) rest work'
      end
  end.

(** Lines 1815-1818. *)
Definition add_tracking_columns (work : DataFrame string) : DataFrame string :=
  DF.set_column_scalar "Matched_Column" ""
    (DF.set_column_scalar "Confidence" ""
      (DF.set_column_scalar "Matched_Reference_Name" ""
        (DF.set_column_scalar "Match_Type" "" work))).

(** Line 1959. *)
Definition cols_to_drop (target_columns : list string) : list string :=
  "clean_reference" :: (clean_target <$> seq 0 (length target_columns)).

(** Lines 1964-1969: the percentages exist only for a non-empty table. *)
Definition percent (count total_records : nat) : Q :=
  inject_Z (Z.of_nat count) / inject_Z (Z.of_nat total_records) * 100.

Definition log_statistics (st : stats) (total_records : nat) : run_outcome :=
  Completed st total_records
    (if decide (0 < total_records)%nat
     then Some (percent (exact_matches st) total_records,
                percent (fuzzy_matches st) total_records,
                percent (no_matches st) total_records)
     else None).

Section run.
Context `{Difflib}.

(** The loop [for idx, row in self.secondary_work.iterrows()] (line 1823)
    over the rows not yet visited.  The rows read are those of the table
    before the loop; an exception leaves the rows from the current one on
    as they were. *)
Fixpoint process_rows (self : app) (master_work : DataFrame string)
    (work_columns : list string) (todo : list (gmap string string))
    (st : stats) : list (gmap string value) * stats * option exn :=
  match todo with
  | [] => ([], st, None)
  | row :: rest =>
      match collect_matches self master_work
              (selected_reference_primary self) (selected_data_source self)
              0 (selected_target_columns self) row with
      | Raise e => ((λ r : gmap string string, Str <$> r) <$> todo, st, Some e)
      | Ok matches_found =>
          let '(r, st) := update_row (selected_replace_columns self)
                            work_columns matches_found (Str <$> row) st in
          let '(rs, st, e) := process_rows self master_work work_columns rest st in
          (r :: rs, st, e)
      end
  end.

(** [process_data(self)] up to the statistics it logs (lines 1764-1969). *)
Definition process_data (self : app) : run_outcome * app :=
  match master_df self, secondary_df self with
  | Some master, Some secondary =>
      let reference_primary := selected_reference_primary self in
      if decide (reference_primary = "") then
        (Failed (ValueError "Please select a reference primary match column"), self)
      else if decide (selected_target_columns self = []) then
        (Failed (ValueError "Please select at least one target column for comparison"), self)
      else if preserve_structure self
              && bool_decide (selected_replace_columns self = []) then
        (Failed (ValueError "Please select columns to replace when preserve structure is enabled"), self)
      else if decide (selected_data_source self = "") then
        (Failed (ValueError "Please select a data source column"), self)
      else
        match DF.with_clean_column "clean_reference" reference_primary master with
        | None =>
            (Failed (KeyError reference_primary),
             set_secondary_work (Some (DF.to_values secondary)) self)
        | Some master_work =>
            match add_clean_targets 0 (selected_target_columns self) secondary with
            | (work, Some e) =>
                (Failed e, set_secondary_work (Some (DF.to_values work)) self)
            | (work, None) =>
                if preserve_structure self then
                  let work := add_tracking_columns work in
                  let '(rs, st, e) :=
                    process_rows self master_work (columns work) (rows work)
                                 (mkStats 0 0 0) in
                  let processed := mkDataFrame (columns work) rs in
                  match e with
                  | Some e => (Failed e, set_secondary_work (Some processed) self)
                  | None =>
                      let final :=
                        DF.drop (cols_to_drop (selected_target_columns self))
                                processed in
                      (log_statistics st (DF.len final),
                       set_secondary_work (Some final) self)
                  end
                else
                  (log_statistics (mkStats 0 0 0) (DF.len work),
                   set_secondary_work (Some (DF.to_values work)) self)
            end
        end
  | _, _ => (Failed (ValueError "Please load both files first"), self)
  end.
End run.

(** [df['Match_Type'] == t] on a row, and [len(df[df['Match_Type'] == t])],
    the count [export_results] puts on its summary sheet (lines 2107-2109). *)
Definition has_match_type (t : string) (r : gmap string value) : bool :=
  match r !! "Match_Type" with
  | Some (Str s) => bool_decide (s = t)
  | _ => false
  end.

Definition count_match_type (t : string) (df : DataFrame value) : nat :=
  length (filter (λ r, has_match_type t r) (rows df)).

(** The four tracking columns (lines 1815-1818). *)
Definition tracking_columns : list string :=
  ["Match_Type"; "Matched_Reference_Name"; "Confidence"; "Matched_Column"].

(* ===================================================================== *)
(** * Whole-column replace and undo                                       *)
(* ===================================================================== *)

(** What a button handler shows: a message box, or an exception that
    escapes the handler. *)
Inductive dialog :=
| ShowWarning (title : string)
| ShowInfo (title : string)
| Uncaught (e : exn).

(** [replace_entire_column(self)] (lines 885-901). *)
Definition replace_entire_column (self : app) : dialog * app :=
  match secondary_work self with
  | None => (ShowWarning "No Data", self)
  | Some work =>
      let col := replace_col_combo self in
      let val := replace_col_value self in
      if decide (col = "") then (ShowWarning "No Column Selected", self)
      else
        match DF.get_column col work with
        | None => (Uncaught (KeyError col), self)
        | Some data =>
            (ShowInfo "Column Replaced",
             set_secondary_work (Some (DF.set_column_scalar col (Str val) work))
               (set_undo (Some data) (Some col) self))
        end
  end.

(** [undo_replace_column(self)] (lines 903-913). *)
Definition undo_replace_column (self : app) : dialog * app :=
  match secondary_work self, undo_col_data self, undo_col_name self with
  | Some work, Some data, Some name =>
      (ShowInfo "Undo Complete",
       set_undo None None
         (set_secondary_work (Some (DF.set_column name data work)) self))
  | _, _, _ => (ShowWarning "Nothing to Undo", self)
  end.

(** [preview_replace_column(self)] (lines 868-882): the message box and,
    when it is a preview, the frame [preview_df[[col]].head(10)] whose text
    it shows.  The replacement is made on a copy, and the handler assigns
    no attribute: the state stays as it is. *)
Definition preview_replace_column (self : app)
  : dialog * option (DataFrame value) :=
  match secondary_work self with
  | None => (ShowWarning "No Data", None)
  | Some work =>
      let col := replace_col_combo self in
      let val := replace_col_value self in
      if decide (col = "") then (ShowWarning "No Column Selected", None)
      else
        let preview_df := DF.set_column_scalar col (Str val) work in
        let preview_rows := DF.head 10 (DF.select col preview_df) in
        (ShowInfo "Preview Replacement", Some preview_rows)
  end.

(** The user's choice in the replace-column widgets: the combobox entry
    and the text of the value field. *)
Definition choose_replacement (col val : string) (self : app) : app :=
  mkApp (master_df self) (secondary_df self) (secondary_work self)
        (selected_reference_primary self) (selected_target_columns self)
        (selected_replace_columns self) (selected_data_source self)
        (fuzzy_matching self) (similarity_threshold self)
        (enable_multivalue self) (target_delimiter self)
        (preserve_structure self) col val
        (undo_col_data self) (undo_col_name self).

(* ===================================================================== *)
(** * Column selection on the mapping tab                                 *)
(* ===================================================================== *)

(** The four selections, assigned at once. *)
Definition set_selections (reference_primary : string)
    (target_columns replace_columns : list string) (data_source : string)
    (self : app) : app :=
  mkApp (master_df self) (secondary_df self) (secondary_work self)
        reference_primary target_columns replace_columns data_source
        (fuzzy_matching self) (similarity_threshold self)
        (enable_multivalue self) (target_delimiter self)
        (preserve_structure self) (replace_col_combo self)
        (replace_col_value self) (undo_col_data self) (undo_col_name self).

(** The handlers of lines 922-968.  [selected] is the value of the
    combobox the handler reads. *)
Definition on_data_source_selected (selected : string) (self : app) : app :=
  if decide (selected = "") then self
  else set_selections (selected_reference_primary self)
         (selected_target_columns self) (selected_replace_columns self)
         selected self.

Definition on_reference_primary_selected (selected : string) (self : app) : app :=
  if decide (selected = "") then self
  else set_selections selected
         (selected_target_columns self) (selected_replace_columns self)
         (selected_data_source self) self.

(** [self.selected_target_columns.insert(0, selected)]. *)
Definition on_target_primary_selected (selected : string) (self : app) : app :=
  if decide (selected ≠ "" ∧ selected ∉ selected_target_columns self)
  then set_selections (selected_reference_primary self)
         (selected :: selected_target_columns self)
         (selected_replace_columns self) (selected_data_source self) self
  else self.

(** [self.selected_target_columns.append(selected)]. *)
Definition add_target_column (selected : string) (self : app) : app :=
  if decide (selected ≠ "" ∧ selected ∉ selected_target_columns self)
  then set_selections (selected_reference_primary self)
         (selected_target_columns self ++ [selected])
         (selected_replace_columns self) (selected_data_source self) self
  else self.

Definition add_replace_column (selected : string) (self : app) : app :=
  if decide (selected ≠ "" ∧ selected ∉ selected_replace_columns self)
  then set_selections (selected_reference_primary self)
         (selected_target_columns self)
         (selected_replace_columns self ++ [selected])
         (selected_data_source self) self
  else self.

(** The double-click handlers of lines 1021-1041.  [selection] is
    [curselection()]; [pop(index)] is guarded by the length. *)
Definition remove_target_from_listbox (selection : list nat) (self : app) : app :=
  match selection with
  | [] => self
  | index :: _ =>
      if decide (index < length (selected_target_columns self))%nat
      then set_selections (selected_reference_primary self)
             (delete index (selected_target_columns self))
             (selected_replace_columns self) (selected_data_source self) self
      else self
  end.

Definition remove_replace_from_listbox (selection : list nat) (self : app) : app :=
  match selection with
  | [] => self
  | index :: _ =>
      if decide (index < length (selected_replace_columns self))%nat
      then set_selections (selected_reference_primary self)
             (selected_target_columns self)
             (delete index (selected_replace_columns self))
             (selected_data_source self) self
      else self
  end.

(** [clear_all_selections(self)] (lines 1043-1056). *)
Definition clear_all_selections (self : app) : app :=
  set_selections "" [] [] "" self.

(** Lines 1072 and 1095. *)
Definition name_keywords : list string :=
  ["name"; "naam"; "full name"; "fullname"; "participant"].

Definition id_keywords : list string :=
  ["id"; "signum"; "employee id"; "emp id"; "userid"; "user id"].

(** Whether the inner loop [for keyword in keywords: if keyword in
    col.lower(): ...; break] reaches its body. *)
Definition has_keyword (keywords : list string) (col : string) : bool :=
  existsb (λ keyword, Py.contains_str keyword (Py.lower col)) keywords.

(** One of the four loops over the column labels (lines 1073-1115): a
    label with a keyword is put into the combobox and handed to [select];
    the loop breaks once [found] holds. *)
Fixpoint detect_columns (keywords : list string) (select : string → app → app)
    (found : app → bool) (cols : list string) (self : app) : app :=
  match cols with
  | [] => self
  | col :: rest =>
      let self := if has_keyword keywords col then select col self else self in
      if found self then self
      else detect_columns keywords select found rest self
  end.

(** [auto_detect_columns(self)] (lines 1058-1117): the warning it shows,
    if any, and the state after it.  The last loop has no outer [break]. *)
Definition auto_detect_columns (self : app) : option dialog * app :=
  match master_df self, secondary_df self with
  | Some master, Some secondary =>
      let self := clear_all_selections self in
      let master_cols := columns master in
      let secondary_cols := columns secondary in
      let self :=
        detect_columns name_keywords on_reference_primary_selected
          (λ self, bool_decide (selected_reference_primary self ≠ ""))
          master_cols self in
      let self :=
        detect_columns name_keywords on_target_primary_selected
          (λ self, bool_decide (selected_target_columns self ≠ []))
          secondary_cols self in
      let self :=
        detect_columns id_keywords on_data_source_selected
          (λ self, bool_decide (selected_data_source self ≠ ""))
          master_cols self in
      let self :=
        detect_columns id_keywords add_replace_column (λ _, false)
          secondary_cols self in
      (None, self)
  | _, _ => (Some (ShowWarning "No Data"), self)
  end.

(** What the user does on the mapping tab, by the widget bindings of
    lines 660-760, and the handler each action runs. *)
Inductive selection_event :=
| ReferencePrimarySelected (selected : string)
| DataSourceSelected (selected : string)
| TargetPrimaryAdded (selected : string)
| TargetColumnAdded (selected : string)
| ReplaceColumnAdded (selected : string)
| TargetDoubleClicked (selection : list nat)
| ReplaceDoubleClicked (selection : list nat)
| ClearAllPressed
| AutoDetectPressed.

Definition handle (self : app) (event : selection_event) : app :=
  match event with
  | ReferencePrimarySelected selected => on_reference_primary_selected selected self
  | DataSourceSelected selected => on_data_source_selected selected self
  | TargetPrimaryAdded selected => on_target_primary_selected selected self
  | TargetColumnAdded selected => add_target_column selected self
  | ReplaceColumnAdded selected => add_replace_column selected self
  | TargetDoubleClicked selection => remove_target_from_listbox selection self
  | ReplaceDoubleClicked selection => remove_replace_from_listbox selection self
  | ClearAllPressed => clear_all_selections self
  | AutoDetectPressed => (auto_detect_columns self).2
  end.

(** The shape of the two selection lists: no label twice, no empty
    label. *)
Definition selections_ok (self : app) : Prop :=
  NoDup (selected_target_columns self)
  ∧ NoDup (selected_replace_columns self)
  ∧ ("" ∉ selected_target_columns self)
  ∧ ("" ∉ selected_replace_columns self).

(* ===================================================================== *)
(** * The specification's wording, for comparison                         *)
(* ===================================================================== *)

Module Spec.

Definition starts_word (s : string) : bool :=
  match s with
  | String c _ => negb (Py.isspace c)
  | EmptyString => false
  end.

(** The maximal whitespace-free pieces of a string, in order. *)
Fixpoint ws_words (s : string) : list string :=
  match s with
  | EmptyString => []
  | String c s' =>
      if Py.isspace c then ws_words s'
      else if starts_word s' then
             match ws_words s' with
             | w :: ws => String c w :: ws
             | [] => [String c EmptyString]
             end
           else String c EmptyString :: ws_words s'
  end.



(** What the normalizer's output is made of: lower-case word characters
    (letters, digits, underscore), the space and the hyphen. *)
Definition normalized_char (c : ascii) : bool :=
  (Py.isword c && negb (Py.isupper c))
  || (Py.code c =? 32)%N || (Py.code c =? 45)%N.

(** Section 6: the default [delimiterCandidates]. *)
Definition default_delimiters : list ascii := [","; ";"; "|"; " "]%char.

End Spec.

(* ===================================================================== *)
(** * Sample tables                                                      *)
(* ===================================================================== *)

Module Sample.

(** A [difflib] that finds no close match.  The sample runs have fuzzy
    matching switched off, so the matcher never calls it. *)
Definition no_close_matches : Difflib :=
  {| get_close_matches := λ _ _ _, []; SequenceMatcher_ratio := λ _ _, 0 |}.

Definition jane : gmap string string := {[ "Name" := "Jane Doe"; "ID" := "002" ]}.
Definition john : gmap string string := {[ "Name" := "John Smith"; "ID" := "001" ]}.
Definition john_again : gmap string string :=
  {[ "Name" := "JOHN  SMITH."; "ID" := "003" ]}.

(** The reference table; its last row normalizes to the key of the second. *)
Definition reference : DataFrame string :=
  mkDataFrame ["Name"; "ID"] [jane; john; john_again].

(** [reference] with its [clean_reference] column. *)
Definition master_work : DataFrame string :=
  mkDataFrame ["Name"; "ID"; "clean_reference"]
    [ <["clean_reference" := "jane doe"]> jane;
      <["clean_reference" := "john smith"]> john;
      <["clean_reference" := "john smith"]> john_again ].

Definition target : DataFrame string :=
  mkDataFrame ["FullName"; "EmployeeID"; "Status"]
    [ {[ "FullName" := "john   smith"; "Status" := "new" ]};
      {[ "FullName" := "John Smith, Jane Doe"; "EmployeeID" := "?" ]};
      {[ "FullName" := "John Smith, Nobody"; "Status" := "old" ]} ].

(** Both files loaded, [Name] matched against [FullName], [ID] copied into
    [EmployeeID]; fuzzy matching off, multi-value processing on. *)
Definition tool : app :=
  mkApp (Some reference) (Some target) None
        "Name" ["FullName"] ["EmployeeID"] "ID"
        false (8 # 10) true "," true "Status" "Reviewed" None None.

(** A target whose only row is a multi-valued field with no known name. *)
Definition unknown_names : DataFrame string :=
  mkDataFrame ["FullName"; "EmployeeID"]
    [ {[ "FullName" := "Nobody, Noone" ]} ].

Definition tool_unknown_names : app :=
  mkApp (Some reference) (Some unknown_names) None
        "Name" ["FullName"] ["EmployeeID"] "ID"
        false (8 # 10) true "," true "" "" None None.

(** [tool] after the target file was replaced by one without the selected
    replace column; [load_files] keeps the selections. *)
Definition other_target : DataFrame string :=
  mkDataFrame ["FullName"] [ {[ "FullName" := "john smith" ]} ].

Definition tool_stale_replace : app :=
  mkApp (Some reference) (Some other_target) None
        "Name" ["FullName"] ["EmployeeID"] "ID"
        false (8 # 10) false "," true "" "" None None.

(** [tool] without a data-source column selected. *)
Definition tool_no_data_source : app :=
  mkApp (Some reference) (Some target) None
        "Name" ["FullName"] ["EmployeeID"] ""
        false (8 # 10) true "," true "Status" "Reviewed" None None.



(** [tool] after a completed run, with [Status] chosen for replacement. *)
Definition processed : DataFrame value :=
  mkDataFrame ["FullName"; "EmployeeID"; "Status"; "Match_Type"]
    [ {[ "FullName" := Str "john   smith"; "EmployeeID" := Str "001";
         "Status" := Str "new"; "Match_Type" := Str "EXACT" ]};
      {[ "FullName" := Str "nobody"; "Match_Type" := Str "REVIEW" ]};
      {[ "FullName" := Str "Jane Doe"; "EmployeeID" := Str "002";
         "Status" := Str "old"; "Match_Type" := Str "EXACT" ]} ].

Definition tool_processed : app :=
  mkApp (Some reference) (Some target) (Some processed)
        "Name" ["FullName"] ["EmployeeID"] "ID"
        false (8 # 10) true "," true "Status" "Reviewed" None None.

(** [tool] with a target file that has no rows. *)
Definition empty_target : DataFrame string :=
  mkDataFrame ["FullName"; "EmployeeID"] [].

Definition tool_empty_target : app :=
  mkApp (Some reference) (Some empty_target) None
        "Name" ["FullName"] ["EmployeeID"] "ID"
        true (8 # 10) true "," true "" "" None None.



(** [tool] with [preserve_structure] switched off and no replace column. *)
Definition tool_no_preserve : app :=
  mkApp (Some reference) (Some target) None
        "Name" ["FullName"] [] "ID"
        false (8 # 10) true "," false "" "" None None.

(** A [difflib] for which every name is close to the first candidate. *)
Definition first_is_close : Difflib :=
  {| get_close_matches := λ _ possibilities _, take 1 possibilities;
     SequenceMatcher_ratio := λ _ _, 9 # 10 |}.

(** A target file whose labels have no digits or spaces in common with
    the keyword lists but contain some of them. *)
Definition survey : DataFrame string :=
  mkDataFrame ["Participant"; "Valid"; "Signum"; "Comment"]
    [ {[ "Participant" := "Jane Doe"; "Valid" := "yes" ]} ].

(** [tool] after the survey file was loaded as target. *)
Definition tool_survey : app :=
  mkApp (Some reference) (Some survey) None
        "Name" ["FullName"] ["EmployeeID"] "ID"
        false (8 # 10) true "," true "" "" None None.

(** The state after [load_files], before any column is selected. *)
Definition tool_loaded : app :=
  mkApp (Some reference) (Some target) None
        "" [] [] ""
        true (8 # 10) false "," true "" "" None None.

End Sample.

(* ===================================================================== *)
(** * Properties of the normalizer                                        *)
(* ===================================================================== *)

Lemma forall_ascii (P : ascii → bool) :
  (forallb P (ascii_of_nat <$> seq 0 256) = true) → ∀ c, P c = true.
Proof.
  intros HP c. rewrite forallb_forall in HP. apply HP.
  rewrite <- (ascii_nat_embedding c). apply in_map, in_seq.
  pose proof (nat_ascii_bounded c). lia.
Qed.

Ltac by_cases_on_char c :=
  revert c;
  match goal with
  | |- ∀ c : ascii, @?P c = true => apply (forall_ascii P); vm_compute; reflexivity
  end.

Lemma lower_char_normalized c :
  implb (Py.kept (Py.lower_char c)
         && (negb (Py.isspace c) || (Py.code c =? 32)%N))
        (Spec.normalized_char (Py.lower_char c)) = true.
Proof. by_cases_on_char c. Qed.

Lemma sub_ws_runs_lstrip u :
  Py.sub_ws_runs false (Py.lstrip u) = Py.sub_ws_runs true u.
Proof.
  induction u as [|c u IH]; simpl; [done|].
  destruct (Py.isspace c) eqn:E; simpl; [done|]. by rewrite E.
Qed.

Lemma rstrip_empty_words s : Py.rstrip s = "" ↔ Spec.ws_words s = [].
Proof.
  induction s as [|c s IH]; simpl; [done|].
  destruct (Py.isspace c) eqn:E.
  - destruct (Py.rstrip s); [tauto|]. rewrite <- IH. done.
  - split.
    + destruct (Py.rstrip s); done.
    + destruct (Spec.starts_word s); [destruct (Spec.ws_words s)|]; done.
Qed.

Lemma join_cons_char d c w ws :
  Py.join d (String c w :: ws) = String c (Py.join d (w :: ws)).
Proof. destruct ws; reflexivity. Qed.

Lemma sub_ws_runs_cons b c u :
  Py.sub_ws_runs b (String c u)
  = if Py.isspace c
    then (if b then Py.sub_ws_runs true u
          else String " "%char (Py.sub_ws_runs true u))
    else String c (Py.sub_ws_runs false u).
Proof. reflexivity. Qed.

(** Trimming and collapsing leaves the words of the input, separated by
    single spaces. *)
Lemma collapse_rstrip_words s :
  Py.sub_ws_runs true (Py.rstrip s) = Py.join " " (Spec.ws_words s) ∧
  Py.sub_ws_runs false (Py.rstrip s) =
    (if Spec.starts_word s then Py.join " " (Spec.ws_words s)
     else match Spec.ws_words s with
          | [] => ""
          | ws => String " "%char (Py.join " " ws)
          end).
Proof.
  induction s as [|c s [IHt IHf]]; [done|].
  pose proof (rstrip_empty_words s) as Hempty.
  cbn [Py.rstrip Spec.ws_words Spec.starts_word].
  destruct (Py.isspace c) eqn:E; cbn [negb].
  - destruct (Py.rstrip s) as [|a t] eqn:Hr.
    + rewrite (proj1 Hempty eq_refl). done.
    + rewrite !(sub_ws_runs_cons _ c), E, IHt.
      destruct (Spec.ws_words s) as [|w ws]; [|done].
      destruct Hempty as [_ Habs]. by specialize (Habs eq_refl).
  - assert (Py.sub_ws_runs true
              match Py.rstrip s with
              | "" => String c ""
              | String _ _ as t => String c t
              end = String c (Py.sub_ws_runs false (Py.rstrip s))
            ∧ Py.sub_ws_runs false
              match Py.rstrip s with
              | "" => String c ""
              | String _ _ as t => String c t
              end = String c (Py.sub_ws_runs false (Py.rstrip s))) as [-> ->].
    { destruct (Py.rstrip s); by rewrite !(sub_ws_runs_cons _ c), E. }
    rewrite IHf. destruct (Spec.starts_word s).
    + destruct (Spec.ws_words s) as [|w ws]; [done|].
      by rewrite join_cons_char.
    + destruct (Spec.ws_words s) as [|w ws]; done.
Qed.

Lemma clean_name_words s :
  clean_name (Some s)
  = Py.sub_special (Py.lower (Py.join " " (Spec.ws_words s))).
Proof.
  unfold clean_name, Py.strip.
  by rewrite sub_ws_runs_lstrip, (proj1 (collapse_rstrip_words s)).
Qed.

Lemma sub_ws_runs_spaces b u :
  Forall (λ c, Py.isspace c = true → c = " "%char) (Py.chars (Py.sub_ws_runs b u)).
Proof.
  revert b. induction u as [|c u IH]; intros b; simpl; [constructor|].
  destruct (Py.isspace c) eqn:E.
  - destruct b; [apply IH|]. constructor; [done|apply IH].
  - constructor; [congruence|apply IH].
Qed.

Lemma sub_special_lower_normalized t :
  Forall (λ c, Py.isspace c = true → c = " "%char) (Py.chars t) →
  Forall (λ c, Spec.normalized_char c = true)
         (Py.chars (Py.sub_special (Py.lower t))).
Proof.
  induction t as [|c t IH]; simpl; intros Ht; [constructor|].
  inversion Ht as [|?? Hc Ht']; subst.
  destruct (Py.kept (Py.lower_char c)) eqn:Ek; [|by apply IH].
  simpl. constructor; [|by apply IH].
  pose proof (lower_char_normalized c) as Hn. rewrite Ek in Hn.
  destruct (Py.isspace c) eqn:Es; simpl in Hn; [|done].
  by rewrite (Hc eq_refl) in *.
Qed.

(** The normalizer's output is made of lower-case word characters, spaces
    and hyphens. *)
Lemma clean_name_chars_normalized (raw : option string) :
  Forall (λ c, Spec.normalized_char c = true) (Py.chars (clean_name raw)).
Proof.
  destruct raw as [s|]; [|constructor].
  apply sub_special_lower_normalized, sub_ws_runs_spaces.
Qed.

(** C1.  On the input ["a . b"] the normalizer returns ["a  b"], with two
    spaces where the full stop was removed, and normalizing that result
    again returns ["a b"]: the second application changes the key. *)
Theorem clean_name_twice_differs :
  clean_name (Some "a . b") = "a  b"
  ∧ clean_name (Some (clean_name (Some "a . b"))) = "a b"
  ∧ clean_name (Some (clean_name (Some "a . b"))) ≠ clean_name (Some "a . b").
Proof. vm_compute. by repeat split. Qed.



(* ===================================================================== *)
(** * Properties of the matcher                                           *)
(* ===================================================================== *)

(** The exact step selects the first row carrying the key. *)
Lemma where_clean_reference_first (master_work : DataFrame string) (key : string)
    (earlier later : list (gmap string string)) (r : gmap string string) :
  rows master_work = earlier ++ r :: later →
  r !! "clean_reference" = Some key →
  Forall (λ r', r' !! "clean_reference" ≠ Some key) earlier →
  where_clean_reference master_work key
  = r :: filter (λ r', r' !! "clean_reference" = Some key) later.
Proof.
  intros Hrows Hr Hearlier. unfold where_clean_reference. rewrite Hrows, filter_app.
  rewrite filter_cons_True by done.
  replace (filter _ earlier) with (@nil (gmap string string)); [done|].
  clear Hrows. induction Hearlier as [|r' l Hr' _ IH]; [done|].
  by rewrite filter_cons_False.
Qed.

Lemma with_clean_column_rows (new src : string) (df df' : DataFrame string) :
  DF.with_clean_column new src df = Some df' →
  rows df' = (λ r, <[new := clean_name (r !! src)]> r) <$> rows df
  ∧ columns df' = DF.add_column new (columns df)
  ∧ src ∈ columns df.
Proof.
  unfold DF.with_clean_column. case_decide; [|done]. by intros [= <-].
Qed.

(** C4.  When the target key is not empty, so that the exact step is
    reached, the matcher returns the first record in reference table order
    whose normalized key ([clean_reference]) equals the target key, with
    type EXACT and confidence 1.0; rows after it that carry the same key,
    and the fuzzy settings, play no part. *)
Theorem exact_match_first_record `{Difflib} (self : app)
    (master_work : DataFrame string)
    (reference_primary data_source target_col target_value : string)
    (exact_only : bool)
    (earlier later : list (gmap string string)) (r : gmap string string) :
  rows master_work = earlier ++ r :: later →
  r !! "clean_reference" = Some (clean_name (Some target_value)) →
  Forall (λ r', r' !! "clean_reference" ≠ Some (clean_name (Some target_value)))
         earlier →
  clean_name (Some target_value) ≠ "" →
  head (where_clean_reference master_work (clean_name (Some target_value))) = Some r
  ∧ find_match_for_value self target_value master_work
      reference_primary data_source exact_only false
    = Some {| fm_type := "EXACT";
              fm_matched_name := r !! reference_primary;
              fm_confidence := 1;
              fm_data_value := DF.series_get master_work r data_source "" |}
  ∧ single_value_match self master_work reference_primary data_source
      target_col target_value
    = Some {| type := "EXACT";
              matched_name := r !! reference_primary;
              confidence := 1;
              column := target_col;
              data_value := DF.series_get master_work r data_source "" |}.
Proof.
  intros Hrows Hr Hearlier Hkey.
  pose proof (where_clean_reference_first _ _ _ _ _ Hrows Hr Hearlier) as Hw.
  unfold find_match_for_value, single_value_match.
  rewrite !decide_False by done. rewrite !Hw. done.
Qed.

Lemma exact_match_first_record_witness :
  head (where_clean_reference Sample.master_work (clean_name (Some " John  SMITH ")))
  = Some (<["clean_reference" := "john smith"]> Sample.john)
  ∧ find_match_for_value (H := Sample.no_close_matches) Sample.tool " John  SMITH "
      Sample.master_work "Name" "ID" false false
    = Some {| fm_type := "EXACT";
              fm_matched_name := Some "John Smith";
              fm_confidence := 1;
              fm_data_value := Some "001" |}
  ∧ single_value_match (H := Sample.no_close_matches) Sample.tool
      Sample.master_work "Name" "ID" "FullName" " John  SMITH "
    = Some {| type := "EXACT";
              matched_name := Some "John Smith";
              confidence := 1;
              column := "FullName";
              data_value := Some "001" |}.
Proof.
  pose proof (exact_match_first_record (H := Sample.no_close_matches) Sample.tool
                Sample.master_work "Name" "ID" "FullName" " John  SMITH " false
                [<["clean_reference" := "jane doe"]> Sample.jane]
                [<["clean_reference" := "john smith"]> Sample.john_again]
                (<["clean_reference" := "john smith"]> Sample.john)) as W.
  assert (clean_name (Some " John  SMITH ") = "john smith") as Hkey
    by (by vm_compute).
  rewrite Hkey in W.
  destruct W as (W1 & W2 & W3).
  - reflexivity.
  - by vm_compute.
  - repeat constructor. by vm_compute.
  - discriminate.
  - split; [exact W1|]. split.
    + rewrite W2. by vm_compute.
    + rewrite W3. by vm_compute.
Defined.

(* ===================================================================== *)
(** * Properties of the value splitter and the column reconciler          *)
(* ===================================================================== *)

(** The delimiter found is the first candidate, in list order, that occurs
    in the string. *)
Lemma first_delimiter_spec (delims : list ascii) (target_str : string) :
  match first_delimiter delims target_str with
  | Some d =>
      ∃ before after, delims = before ++ d :: after
        ∧ Py.contains d target_str = true
        ∧ Forall (λ d', Py.contains d' target_str = false) before
  | None => Forall (λ d', Py.contains d' target_str = false) delims
  end.
Proof.
  induction delims as [|delim rest IH]; simpl; [constructor|].
  destruct (Py.contains delim target_str) eqn:E.
  - exists [], rest. by repeat split.
  - destruct (first_delimiter rest target_str) as [d|].
    + destruct IH as (before & after & -> & Hd & Hb).
      exists (delim :: before), after. repeat split; [done|]. by constructor.
    + by constructor.
Qed.

(** The loop over the sub-values yields one data value and one type per
    sub-value, in order. *)
Lemma match_sub_values_map `{Difflib} (self : app) (master_work : DataFrame string)
    (reference_primary data_source : string) (target_values : list string) :
  match_sub_values self master_work reference_primary data_source target_values
  = ((λ v, match find_match_for_value self v master_work
                   reference_primary data_source false false with
           | Some m => fm_data_value m
           | None => Some "match unfound"
           end) <$> target_values,
     (λ v, match find_match_for_value self v master_work
                   reference_primary data_source false false with
           | Some m => fm_type m
           | None => "NONE"
           end) <$> target_values).
Proof.
  unfold match_sub_values.
  set (f := λ '(matched_results, match_types) target_val, _).
  assert (∀ vs a b,
    foldl f (a, b) vs
    = (a ++ ((λ v, match find_match_for_value self v master_work
                           reference_primary data_source false false with
                   | Some m => fm_data_value m
                   | None => Some "match unfound"
                   end) <$> vs),
       b ++ ((λ v, match find_match_for_value self v master_work
                           reference_primary data_source false false with
                   | Some m => fm_type m
                   | None => "NONE"
                   end) <$> vs))) as Hgen.
  { induction vs as [|v vs IH]; intros a b; simpl.
    - by rewrite !app_nil_r.
    - destruct (find_match_for_value _ v _ _ _ _ _);
        rewrite IH, <- !app_assoc; done. }
  apply (Hgen target_values [] []).
Qed.

Lemma multi_value_match_None `{Difflib} (self : app) (master_work : DataFrame string)
    (reference_primary data_source target_col target_str : string) :
  multi_value_match self master_work reference_primary data_source
    target_col target_str = None
  ↔ match first_delimiter delimiters_to_check target_str with
    | Some d => (length (split_values d target_str) < 2)%nat
    | None => True
    end.
Proof.
  unfold multi_value_match.
  destruct (first_delimiter delimiters_to_check target_str) as [d|]; [|done].
  case_decide as Hlen; [|split; [lia|done]].
  rewrite match_sub_values_map.
  destruct (split_values d target_str) as [|v vs]; simpl in *; [lia|].
  split; [done|lia].
Qed.










(** C6, as stated, fails: the space is one of the specification's default
    candidates and would split ["John Smith"] into two sub-values, but the
    code's candidate list has no space, finds no delimiter in that field
    and processes it as single-valued. *)
Lemma space_is_not_a_candidate :
  first_delimiter Spec.default_delimiters "John Smith" = Some " "%char
  ∧ length (split_values " " "John Smith") = 2%nat
  ∧ first_delimiter delimiters_to_check "John Smith" = None
  ∧ multi_value_match (H := Sample.no_close_matches) Sample.tool
      Sample.master_work "Name" "ID" "FullName" "John Smith" = None.
Proof. vm_compute. by repeat split. Qed.

(** C6, amended.  Delimiter detection scans the fixed candidates comma,
    semicolon and pipe, in that order, and picks the first that occurs
    anywhere in the raw string; if none occurs, or if splitting, trimming
    and dropping empty parts leaves fewer than 2 parts, the field is
    processed as single-valued. *)
Theorem delimiter_detection `{Difflib} (self : app) (master_work : DataFrame string)
    (reference_primary data_source target_col target_str : string) :
  delimiters_to_check = [","; ";"; "|"]%char
  ∧ match first_delimiter delimiters_to_check target_str with
    | Some d =>
        ∃ before after, delimiters_to_check = before ++ d :: after
          ∧ Py.contains d target_str = true
          ∧ Forall (λ d', Py.contains d' target_str = false) before
    | None => Forall (λ d', Py.contains d' target_str = false) delimiters_to_check
    end
  ∧ (multi_value_match self master_work reference_primary data_source
       target_col target_str = None
     ↔ match first_delimiter delimiters_to_check target_str with
       | Some d => (length (split_values d target_str) < 2)%nat
       | None => True
       end)
  ∧ match multi_value_match self master_work reference_primary data_source
            target_col target_str with
    | None =>
        match_column self master_work reference_primary data_source target_col
          {[ target_col := target_str ]}
        = if decide (Py.strip target_str = "") then Ok None
          else Ok (single_value_match self master_work reference_primary
                     data_source target_col target_str)
    | Some _ => True
    end.
Proof.
  split; [done|]. split; [apply first_delimiter_spec|].
  split; [apply multi_value_match_None|].
  destruct (multi_value_match _ _ _ _ _ _) eqn:E; [done|].
  unfold match_column. rewrite lookup_singleton_eq, E.
  by destruct (enable_multivalue self).
Qed.



(* ===================================================================== *)
(** * Properties of the row reconciler                                    *)
(* ===================================================================== *)

(** The rounded confidence is a multiple of 1/1000 at most 1/2000 away. *)
Lemma round3_nearest (x : Q) :
  ∃ z : Z, round3 x = z # 1000 ∧ Qabs (round3 x - x) <= 1 # 2000.
Proof.
  unfold round3. destruct x as [p d]. cbn [Qnum Qden].
  pose proof (Z.div_mod (p * 1000) (Z.pos d) ltac:(lia)) as Hdiv.
  pose proof (Z.mod_pos_bound (p * 1000) (Z.pos d) ltac:(lia)) as Hmod.
  set (fl := (p * 1000 / Z.pos d)%Z) in *.
  set (r := ((p * 1000) mod Z.pos d)%Z) in *.
  assert (∀ z : Z, (Z.abs (2 * (z * Z.pos d - p * 1000)) <= Z.pos d)%Z →
            Qabs ((z # 1000) - (p # d)) <= 1 # 2000) as Hle.
  { intros z Hz. apply Qabs_Qle_condition.
    unfold Qle, Qminus, Qplus, Qopp. cbn [Qnum Qden].
    rewrite !Pos2Z.inj_mul. split; lia. }
  destruct (2 * r <? Z.pos d)%Z eqn:E1; [|destruct (Z.pos d <? 2 * r)%Z eqn:E2;
    [|destruct (Z.even fl)]];
    eexists; (split; [reflexivity|]); apply Hle; lia.
Qed.

(** [max] keeps the first entry of greatest confidence: every entry before
    it is strictly smaller, none after it is greater. *)
Lemma max_by_confidence_spec (first : match_info) (rest : list match_info) :
  ∃ before after,
    first :: rest = before ++ max_by_confidence first rest :: after
    ∧ Forall (λ m, confidence m < confidence (max_by_confidence first rest)) before
    ∧ Forall (λ m, confidence m <= confidence (max_by_confidence first rest)) after.
Proof.
  revert first. induction rest as [|x rest IH]; intros first.
  { exists [], []. repeat split; constructor. }
  unfold max_by_confidence. cbn [foldl].
  destruct (Qlt_le_dec (confidence first) (confidence x)) as [Hlt|Hle].
  - change (foldl _ x rest) with (max_by_confidence x rest).
    destruct (IH x) as (before & after & Heq & Hb & Ha).
    revert Heq Hb Ha. generalize (max_by_confidence x rest).
    intros best Heq Hb Ha.
    exists (first :: before), after. split; [simpl; by rewrite Heq|].
    split; [|done]. constructor; [|done].
    destruct before as [|b before]; simpl in Heq.
    + by injection Heq as <- _.
    + injection Heq as <- _. apply Forall_cons in Hb as [Hb _].
      by eapply Qlt_trans.
  - change (foldl _ first rest) with (max_by_confidence first rest).
    destruct (IH first) as (before & after & Heq & Hb & Ha).
    revert Heq Hb Ha. generalize (max_by_confidence first rest).
    intros best Heq Hb Ha.
    destruct before as [|b before]; simpl in Heq.
    + injection Heq as <- <-.
      exists [], (x :: rest). split; [done|]. split; [constructor|].
      by constructor.
    + injection Heq as <- ->.
      exists (first :: x :: before), after. split; [done|]. split; [|done].
      apply Forall_cons in Hb as [Hfirst Hbefore].
      repeat constructor; [done| |done]. by eapply Qle_lt_trans.
Qed.

Lemma match_column_column `{Difflib} (self : app) (master_work : DataFrame string)
    (reference_primary data_source target_col : string)
    (row : gmap string string) (m : match_info) :
  match_column self master_work reference_primary data_source target_col row
  = Ok (Some m) →
  column m = target_col.
Proof.
  unfold match_column, multi_value_match, combine_sub_values,
    single_value_match, with_column.
  intros Hm. repeat (case_match; simplify_eq/=); try done.
  all: match goal with
       | Hf : _ <$> _ = Some _ |- _ =>
           apply fmap_Some in Hf as (? & _ & ->); done
       end.
Qed.

(** The entries of [matches_found] are keyed by the positions of the
    target columns that produced them, in increasing order. *)
Lemma collect_matches_spec `{Difflib} (self : app) (master_work : DataFrame string)
    (reference_primary data_source : string) (row : gmap string string)
    (target_columns : list string) (i : nat) (mf : list (nat * match_info)) :
  collect_matches self master_work reference_primary data_source
    i target_columns row = Ok mf →
  StronglySorted (λ a b, (a.1 < b.1)%nat) mf
  ∧ Forall (λ e, (i ≤ e.1)%nat
                 ∧ target_columns !! (e.1 - i)%nat = Some (column e.2)
                 ∧ match_column self master_work reference_primary data_source
                     (column e.2) row = Ok (Some e.2)) mf.
Proof.
  revert i mf. induction target_columns as [|c cols IH]; intros i mf; simpl.
  { intros [= <-]. split; constructor. }
  destruct (match_column _ _ _ _ c row) as [found|] eqn:Hc; [|done].
  destruct (collect_matches _ _ _ _ (S i) cols row) as [later|] eqn:Hl; [|done].
  intros [= <-]. destruct (IH _ _ Hl) as [Hsorted Hall].
  assert (Forall (λ e, (i ≤ e.1)%nat
                 ∧ (c :: cols) !! (e.1 - i)%nat = Some (column e.2)
                 ∧ match_column self master_work reference_primary data_source
                     (column e.2) row = Ok (Some e.2)) later) as Hlater.
  { eapply Forall_impl; [exact Hall|]. intros e (Hle & Hcol & Hm).
    split; [lia|]. split; [|done].
    by replace (e.1 - i)%nat with (S (e.1 - S i)) by lia. }
  destruct found as [m|]; simpl; [|done].
  pose proof (match_column_column _ _ _ _ _ _ _ Hc) as Hcolumn.
  split.
  - constructor; [done|]. eapply Forall_impl; [exact Hall|].
    intros e (Hle & _). simpl. lia.
  - constructor; [|done]. simpl. rewrite Nat.sub_diag, Hcolumn.
    split; [lia|]. by split.
Qed.

Lemma update_row_tracking (replace_columns work_columns : list string)
    (first : nat * match_info) (rest : list (nat * match_info))
    (r : gmap string value) (st : stats) :
  let best := max_by_confidence first.2 (snd <$> rest) in
  let r' := (update_row replace_columns work_columns (first :: rest) r st).1 in
  r' !! "Match_Type" = Some (Str (type best))
  ∧ r' !! "Matched_Reference_Name" = Str <$> matched_name best
  ∧ r' !! "Confidence" = Some (Float (round3 (confidence best)))
  ∧ r' !! "Matched_Column" = Some (Str (column best)).
Proof.
  intros best r'. subst r'. cbn [update_row fst]. fold best. unfold DF.set_cell.
  repeat split.
  - rewrite !lookup_partial_alter_ne by done. by rewrite lookup_partial_alter_eq.
  - rewrite !lookup_partial_alter_ne by done. by rewrite lookup_partial_alter_eq.
  - rewrite !lookup_partial_alter_ne by done. by rewrite lookup_partial_alter_eq.
  - by rewrite lookup_partial_alter_eq.
Qed.




(** After the loop over [matches_found], a cell holds the data value of
    the last entry whose replace column it is, or what it held before. *)
Lemma replace_phase_cell (replace_columns work_columns : list string)
    (mf : list (nat * match_info)) (r : gmap string value) (c : string) :
  foldl (write_replace_column replace_columns work_columns) r mf !! c
  = match last (filter (λ e, replace_target replace_columns work_columns e.1
                             = Some c) mf) with
    | Some e => Str <$> data_value e.2
    | None => r !! c
    end.
Proof.
  induction mf as [|e mf IH] using rev_ind; [done|].
  rewrite foldl_app, filter_app. cbn [foldl]. unfold write_replace_column at 1.
  destruct (replace_target replace_columns work_columns e.1) as [col|] eqn:Ht.
  - unfold DF.set_cell. rewrite lookup_partial_alter.
    destruct (decide (col = c)) as [->|Hne].
    + rewrite filter_cons_True by done. by rewrite filter_nil, last_snoc.
    + rewrite filter_cons_False by congruence.
      by rewrite filter_nil, app_nil_r.
  - rewrite filter_cons_False by congruence.
    by rewrite filter_nil, app_nil_r.
Qed.

(** C10, as stated, fails: the run of [tool_stale_replace] has a result at
    position 0 and a replace column, [EmployeeID], configured at position
    0, but the working table has no such column and nothing is written. *)
Lemma stale_replace_column_not_written :
  selected_replace_columns Sample.tool_stale_replace !! 0%nat = Some "EmployeeID"
  ∧ collect_matches (H := Sample.no_close_matches) Sample.tool_stale_replace
      Sample.master_work "Name" "ID" 0 ["FullName"]
      {[ "FullName" := "john smith" ]}
    = Ok [(0%nat, {| type := "EXACT"; matched_name := Some "John Smith";
                     confidence := 1; column := "FullName";
                     data_value := Some "001" |})]
  ∧ (process_data (H := Sample.no_close_matches) Sample.tool_stale_replace).1
    = Completed (mkStats 1 0 0) 1 (Some (percent 1 1, percent 0 1, percent 0 1))
  ∧ secondary_work
      (process_data (H := Sample.no_close_matches) Sample.tool_stale_replace).2
    = Some (mkDataFrame
              ["FullName"; "Match_Type"; "Matched_Reference_Name";
               "Confidence"; "Matched_Column"]
              [ {[ "FullName" := Str "john smith";
                   "Match_Type" := Str "EXACT";
                   "Matched_Reference_Name" := Str "John Smith";
                   "Confidence" := Float (round3 1);
                   "Matched_Column" := Str "FullName" ]} ]).
Proof. vm_compute. by repeat split. Qed.

(** C10, amended.  The data value of the result at target-column position
    [i] is written into the replace column at position [i] if and only if a
    replace column is configured at that position and is a column of the
    working table; the write overwrites that cell and no other; a position
    with no such replace column writes nothing; so after the row's results
    are written, a cell holds the data value of the last result whose
    replace column it is, or what it held before. *)
Theorem replace_write_positional (replace_columns work_columns : list string)
    (r : gmap string value) (i : nat) (m : match_info) :
  let r' := write_replace_column replace_columns work_columns r (i, m) in
  match replace_columns !! i with
  | Some replace_col =>
      (i < length replace_columns)%nat
      ∧ if decide (replace_col ∈ work_columns)
        then r' !! replace_col = Str <$> data_value m
             ∧ ∀ c, c ≠ replace_col → r' !! c = r !! c
        else r' = r
  | None => (length replace_columns ≤ i)%nat ∧ r' = r
  end
  ∧ ∀ (mf : list (nat * match_info)) (c : string),
      foldl (write_replace_column replace_columns work_columns) r mf !! c
      = match last (filter (λ e, replace_target replace_columns work_columns e.1
                                 = Some c) mf) with
        | Some e => Str <$> data_value e.2
        | None => r !! c
        end.
Proof.
  intros r'. subst r'. split; [|intros; apply replace_phase_cell].
  unfold write_replace_column, replace_target. cbn [fst snd].
  destruct (replace_columns !! i) as [replace_col|] eqn:Hi.
  - split; [by eapply lookup_lt_Some|]. case_decide; [|done].
    unfold DF.set_cell. split; [by rewrite lookup_partial_alter_eq|].
    intros c Hc. by rewrite lookup_partial_alter_ne.
  - split; [by apply lookup_ge_None|done].
Qed.

(* ===================================================================== *)
(** * Properties of the run and of whole-column replace and undo          *)
(* ===================================================================== *)

(** C9.  When a required selection is missing (no reference primary
    column, no target column, no replace column while the structure is
    preserved, or no data-source column), [process_data] raises a
    [ValueError], which its handler shows, and leaves the state as it was:
    no working table is created and no row is touched. *)
Theorem missing_selection_aborts `{Difflib} (self : app) :
  selected_reference_primary self = ""
  ∨ selected_target_columns self = []
  ∨ (preserve_structure self = true ∧ selected_replace_columns self = [])
  ∨ selected_data_source self = "" →
  ∃ msg, process_data self = (Failed (ValueError msg), self).
Proof.
  intros Hmissing. unfold process_data.
  destruct (master_df self), (secondary_df self); eauto.
  destruct (decide (selected_reference_primary self = "")); [eauto|].
  destruct (decide (selected_target_columns self = [])); [eauto|].
  destruct (preserve_structure self
            && bool_decide (selected_replace_columns self = [])) eqn:E; [eauto|].
  destruct (decide (selected_data_source self = "")); [eauto|].
  exfalso. destruct Hmissing as [?|[?|[[Hp Hr]|?]]]; try done.
  by rewrite Hp, bool_decide_true in E.
Qed.

Lemma missing_selection_aborts_witness :
  ∃ msg, process_data (H := Sample.no_close_matches) Sample.tool_no_data_source
         = (Failed (ValueError msg), Sample.tool_no_data_source).
Proof.
  apply (missing_selection_aborts (H := Sample.no_close_matches)
           Sample.tool_no_data_source).
  right. right. right. reflexivity.
Defined.

Lemma add_column_present (col : string) (cols : list string) :
  col ∈ cols → DF.add_column col cols = cols.
Proof. intros Hin. unfold DF.add_column. by rewrite decide_True. Qed.

(** Assigning a column's own earlier values back restores every row. *)
Lemma set_column_restores (col : string) (v : value) (rws : list (gmap string value)) :
  imap (λ i r, DF.set_cell col (mjoin (((λ r0, r0 !! col) <$> rws) !! i)) r)
       ((λ r, <[col := v]> r) <$> rws)
  = rws.
Proof.
  apply list_eq. intros i.
  rewrite list_lookup_imap, !list_lookup_fmap.
  destruct (rws !! i) as [r|]; [|done]. simpl. f_equal.
  apply map_eq. intros c. unfold DF.set_cell. rewrite lookup_partial_alter.
  case_decide; [by subst|]. by rewrite lookup_insert_ne.
Qed.

Lemma set_column_scalar_undone (col : string) (v : value) (work : DataFrame value) :
  col ∈ columns work →
  DF.set_column col ((λ r, r !! col) <$> rows work)
    (DF.set_column_scalar col v work) = work.
Proof.
  intros Hin. destruct work as [cols rws]. cbn in Hin.
  unfold DF.set_column, DF.set_column_scalar. cbn [columns rows].
  rewrite !(add_column_present _ cols) by done.
  by rewrite set_column_restores.
Qed.

Lemma replace_entire_column_done (self : app) (work : DataFrame value) :
  secondary_work self = Some work →
  replace_col_combo self ≠ "" →
  replace_col_combo self ∈ columns work →
  replace_entire_column self
  = (ShowInfo "Column Replaced",
     set_secondary_work
       (Some (DF.set_column_scalar (replace_col_combo self)
                (Str (replace_col_value self)) work))
       (set_undo (Some ((λ r, r !! replace_col_combo self) <$> rows work))
          (Some (replace_col_combo self)) self)).
Proof.
  intros Hwork Hcol Hin. unfold replace_entire_column, DF.get_column.
  rewrite Hwork. rewrite decide_False by done. by rewrite decide_True.
Qed.

Lemma undo_replace_column_done (self : app) (work : DataFrame value)
    (data : list (option value)) (name : string) :
  secondary_work self = Some work →
  undo_col_data self = Some data →
  undo_col_name self = Some name →
  undo_replace_column self
  = (ShowInfo "Undo Complete",
     set_undo None None
       (set_secondary_work (Some (DF.set_column name data work)) self)).
Proof. intros Hw Hd Hn. unfold undo_replace_column. by rewrite Hw, Hd, Hn. Qed.

Lemma undo_replace_column_nothing (self : app) :
  undo_col_data self = None ∨ undo_col_name self = None →
  undo_replace_column self = (ShowWarning "Nothing to Undo", self).
Proof.
  intros Hnone. unfold undo_replace_column.
  destruct (secondary_work self), (undo_col_data self), (undo_col_name self);
    try done; by destruct Hnone.
Qed.

(** C8.  Replacing a column of the working table and undoing it at once
    gives back the table as it was before the replace, so the column holds
    exactly its earlier values; the undo discards the snapshot, so a second
    undo reports that there is nothing to undo and changes nothing, as does
    any undo without a snapshot. *)
Theorem undo_restores_column (self : app) (work : DataFrame value) :
  secondary_work self = Some work →
  replace_col_combo self ≠ "" →
  replace_col_combo self ∈ columns work →
  let after_replace := (replace_entire_column self).2 in
  let after_undo := (undo_replace_column after_replace).2 in
  (replace_entire_column self).1 = ShowInfo "Column Replaced"
  ∧ secondary_work after_replace
    = Some (DF.set_column_scalar (replace_col_combo self)
              (Str (replace_col_value self)) work)
  ∧ (undo_replace_column after_replace).1 = ShowInfo "Undo Complete"
  ∧ secondary_work after_undo = Some work
  ∧ DF.get_column (replace_col_combo self) work
    = (secondary_work after_undo ≫= DF.get_column (replace_col_combo self))
  ∧ undo_col_data after_undo = None
  ∧ undo_col_name after_undo = None
  ∧ undo_replace_column after_undo = (ShowWarning "Nothing to Undo", after_undo)
  ∧ ∀ s0 : app, undo_col_data s0 = None ∨ undo_col_name s0 = None →
      undo_replace_column s0 = (ShowWarning "Nothing to Undo", s0).
Proof.
  intros Hwork Hcol Hin after_replace after_undo.
  subst after_undo after_replace.
  rewrite (replace_entire_column_done _ _ Hwork Hcol Hin). cbn [fst snd].
  erewrite undo_replace_column_done by reflexivity.
  cbn [fst snd]. cbn [set_undo set_secondary_work secondary_work
                      undo_col_data undo_col_name].
  rewrite set_column_scalar_undone by done. cbn [mbind option_bind].
  repeat split; try done. apply undo_replace_column_nothing.
Qed.

Lemma undo_restores_column_witness :
  secondary_work
    (undo_replace_column (replace_entire_column Sample.tool_processed).2).2
  = Some Sample.processed
  ∧ (DF.get_column "Status" <$> secondary_work
       (replace_entire_column Sample.tool_processed).2)
    = Some (Some [Some (Str "Reviewed"); Some (Str "Reviewed"); Some (Str "Reviewed")])
  ∧ undo_replace_column
      (undo_replace_column (replace_entire_column Sample.tool_processed).2).2
    = (ShowWarning "Nothing to Undo",
       (undo_replace_column (replace_entire_column Sample.tool_processed).2).2).
Proof.
  assert ("Status" ∈ columns Sample.processed) as Hin
    by (cbn [columns Sample.processed]; set_solver).
  pose proof (undo_restores_column Sample.tool_processed Sample.processed
                eq_refl ltac:(discriminate) Hin) as W.
  cbv zeta in W.
  destruct W as (_ & Hreplaced & _ & Hrestored & _ & _ & _ & Hsecond & _).
  split; [exact Hrestored|]. split; [|exact Hsecond].
  rewrite Hreplaced. vm_compute. reflexivity.
Defined.

(** C2.  On a target whose only row is the multi-valued field
    ["Nobody, Noone"], no sub-value of which is known, the run resolves the
    row's [Match_Type] to REVIEW and increments [fuzzy_matches]; the
    counter of unmatched rows stays 0. *)
Theorem review_row_counted_as_fuzzy `{Difflib} :
  (process_data Sample.tool_unknown_names).1
  = Completed {| exact_matches := 0; fuzzy_matches := 1; no_matches := 0 |} 1
      (Some (percent 0 1, percent 1 1, percent 0 1))
  ∧ secondary_work (process_data Sample.tool_unknown_names).2
    = Some (mkDataFrame
              ["FullName"; "EmployeeID"; "Match_Type"; "Matched_Reference_Name";
               "Confidence"; "Matched_Column"]
              [ {[ "FullName" := Str "Nobody, Noone";
                   "EmployeeID" := Str "match unfound,match unfound";
                   "Match_Type" := Str "REVIEW";
                   "Matched_Reference_Name" := Str "Multi-value: 0/2 matched";
                   "Confidence" := Float (round3 0);
                   "Matched_Column" := Str "FullName" ]} ]).
Proof. vm_compute. by split. Qed.

(** The statistics counter a row increments is decided by whether a
    column produced an entry and whether the best entry is EXACT; an entry
    of any other type, REVIEW included, counts as fuzzy. *)
Lemma update_row_counter (replace_columns work_columns : list string)
    (mf : list (nat * match_info)) (r : gmap string value) (st : stats) :
  (update_row replace_columns work_columns mf r st).2
  = match mf with
    | [] => mkStats (exact_matches st) (fuzzy_matches st) (S (no_matches st))
    | first :: rest =>
        if decide (type (max_by_confidence first.2 (snd <$> rest)) = "EXACT")
        then mkStats (S (exact_matches st)) (fuzzy_matches st) (no_matches st)
        else mkStats (exact_matches st) (S (fuzzy_matches st)) (no_matches st)
    end.
Proof. by destruct mf. Qed.

(* ===================================================================== *)
(** * Further properties                                                  *)
(* ===================================================================== *)

Lemma ws_words_cons c s :
  Spec.ws_words (String c s)
  = if Py.isspace c then Spec.ws_words s
    else if Spec.starts_word s then
           match Spec.ws_words s with
           | w :: ws => String c w :: ws
           | [] => [String c ""]
           end
         else String c "" :: Spec.ws_words s.
Proof. reflexivity. Qed.

Lemma rstrip_cons c t :
  Py.rstrip (String c t)
  = if Py.isspace c && bool_decide (Py.rstrip t = "") then ""
    else String c (Py.rstrip t).
Proof.
  cbn [Py.rstrip]. destruct (Py.rstrip t); by destruct (Py.isspace c).
Qed.

Lemma starts_word_sub_ws_runs u :
  Spec.starts_word (Py.sub_ws_runs false u) = Spec.starts_word u.
Proof.
  destruct u as [|c u]; [done|]. rewrite sub_ws_runs_cons.
  destruct (Py.isspace c) eqn:E; cbn [Spec.starts_word]; by rewrite ?E.
Qed.

(** Collapsing whitespace runs keeps the words. *)
Lemma ws_words_sub_ws_runs b u :
  Spec.ws_words (Py.sub_ws_runs b u) = Spec.ws_words u.
Proof.
  revert b. induction u as [|c u IH]; intros b; [done|].
  rewrite sub_ws_runs_cons, (ws_words_cons c).
  destruct (Py.isspace c) eqn:E.
  - destruct b; [apply IH|]. rewrite ws_words_cons.
    replace (Py.isspace " ") with true by (by vm_compute). apply IH.
  - by rewrite ws_words_cons, E, starts_word_sub_ws_runs, IH.
Qed.

Lemma starts_word_rstrip t : Spec.starts_word (Py.rstrip t) = Spec.starts_word t.
Proof.
  destruct t as [|c t]; [done|]. cbn [Py.rstrip].
  destruct (Py.rstrip t); [|done].
  destruct (Py.isspace c) eqn:E; cbn [Spec.starts_word]; by rewrite ?E.
Qed.

(** Trimming on the right keeps the words. *)
Lemma ws_words_rstrip t : Spec.ws_words (Py.rstrip t) = Spec.ws_words t.
Proof.
  induction t as [|c t IH]; [done|].
  rewrite rstrip_cons. destruct (Py.isspace c) eqn:E; cbn [andb].
  - case_bool_decide as Hr.
    + rewrite ws_words_cons, E. symmetry. by apply rstrip_empty_words.
    + by rewrite !ws_words_cons, E.
  - by rewrite !ws_words_cons, E, starts_word_rstrip, IH.
Qed.

(** The words joined by single spaces are trimmed and collapsed already. *)
Lemma join_words_idempotent s :
  Py.join " " (Spec.ws_words (Py.join " " (Spec.ws_words s)))
  = Py.join " " (Spec.ws_words s).
Proof.
  rewrite <- (proj1 (collapse_rstrip_words s)) at 1.
  by rewrite ws_words_sub_ws_runs, ws_words_rstrip.
Qed.

Lemma Forall_chars_rstrip (P : ascii → Prop) t :
  Forall P (Py.chars t) → Forall P (Py.chars (Py.rstrip t)).
Proof.
  induction t as [|c t IH]; [done|]. cbn [Py.chars Py.rstrip].
  intros [Hc Ht]%Forall_cons. specialize (IH Ht).
  destruct (Py.rstrip t); [|by constructor].
  destruct (Py.isspace c); [constructor|by constructor].
Qed.

Lemma Forall_chars_sub_ws_runs (P : ascii → Prop) b u :
  P " "%char → Forall P (Py.chars u) → Forall P (Py.chars (Py.sub_ws_runs b u)).
Proof.
  intros Hspace. revert b. induction u as [|c u IH]; intros b; [done|].
  rewrite sub_ws_runs_cons. cbn [Py.chars]. intros [Hc Hu]%Forall_cons.
  destruct (Py.isspace c); [destruct b|]; cbn [Py.chars];
    repeat constructor; auto.
Qed.

Lemma normalized_char_stable c :
  implb (Spec.normalized_char c)
        (Py.kept c && bool_decide (Py.lower_char c = c)) = true.
Proof. by_cases_on_char c. Qed.

(** Lower-casing and the character removal leave a normalized string as
    it is. *)
Lemma normalized_fixed t :
  Forall (λ c, Spec.normalized_char c = true) (Py.chars t) →
  Py.sub_special (Py.lower t) = t.
Proof.
  induction t as [|c t IH]; [done|]. cbn [Py.chars Py.lower Py.sub_special].
  intros [Hc Ht]%Forall_cons.
  pose proof (normalized_char_stable c) as Hs. rewrite Hc in Hs.
  apply andb_prop in Hs as [Hk Hl]. apply bool_decide_eq_true in Hl.
  by rewrite Hl, Hk, IH.
Qed.

(** On a normalized string the normalizer only trims and collapses. *)
Lemma clean_name_of_normalized t :
  Forall (λ c, Spec.normalized_char c = true) (Py.chars t) →
  clean_name (Some t) = Py.join " " (Spec.ws_words t).
Proof.
  intros Ht. rewrite clean_name_words. apply normalized_fixed.
  rewrite <- (proj1 (collapse_rstrip_words t)).
  by apply Forall_chars_sub_ws_runs, Forall_chars_rstrip.
Qed.

(** X1.  From its second application on, the normalizer is idempotent: a key
    that was normalized twice is a fixed point. *)
Theorem clean_name_stable_after_two (raw : option string) :
  clean_name (Some (clean_name (Some (clean_name raw))))
  = clean_name (Some (clean_name raw)).
Proof.
  pose proof (clean_name_chars_normalized raw) as Hnorm.
  rewrite (clean_name_of_normalized (clean_name raw)) by done.
  rewrite clean_name_of_normalized.
  - apply join_words_idempotent.
  - rewrite <- (proj1 (collapse_rstrip_words _)).
    by apply Forall_chars_sub_ws_runs, Forall_chars_rstrip.
Qed.



Lemma add_column_elem_of (new c : string) (cols : list string) :
  c ∈ cols → c ∈ DF.add_column new cols.
Proof. intros Hc. unfold DF.add_column. case_decide; set_solver. Qed.

Lemma add_clean_targets_empty (target_columns : list string) (i : nat)
    (work : DataFrame string) :
  rows work = [] →
  Forall (λ c, c ∈ columns work) target_columns →
  ∃ work', add_clean_targets i target_columns work = (work', None)
           ∧ rows work' = [].
Proof.
  revert i work. induction target_columns as [|c cols IH]; intros i work Hrows Hall.
  { by exists work. }
  apply Forall_cons in Hall as [Hc Hcols]. cbn [add_clean_targets].
  unfold DF.with_clean_column. rewrite decide_True by done.
  apply IH; cbn [rows columns].
  - by rewrite Hrows.
  - eapply Forall_impl; [exact Hcols|]. intros c'. apply add_column_elem_of.
Qed.

Lemma log_statistics_empty (st : stats) :
  log_statistics st 0 = Completed st 0 None.
Proof. unfold log_statistics. by rewrite decide_False by lia. Qed.

(** The statistics carry percentages exactly when the table has rows. *)
Theorem percentages_only_when_nonempty (st : stats) (total_records : nat) :
  log_statistics st total_records
  = Completed st total_records
      (match total_records with
       | O => None
       | S _ => Some (percent (exact_matches st) total_records,
                      percent (fuzzy_matches st) total_records,
                      percent (no_matches st) total_records)
       end).
Proof.
  unfold log_statistics. destruct total_records.
  - by rewrite decide_False by lia.
  - by rewrite decide_True by lia.
Qed.

(** X3.  A run over a target table without rows completes: no row is counted,
    [total_records] is 0 and no percentage is computed. *)
Theorem empty_target_completes `{Difflib} (self : app)
    (master secondary : DataFrame string) :
  master_df self = Some master →
  secondary_df self = Some secondary →
  rows secondary = [] →
  selected_reference_primary self ≠ "" →
  selected_reference_primary self ∈ columns master →
  selected_target_columns self ≠ [] →
  Forall (λ c, c ∈ columns secondary) (selected_target_columns self) →
  (preserve_structure self = true → selected_replace_columns self ≠ []) →
  selected_data_source self ≠ "" →
  (process_data self).1 = Completed (mkStats 0 0 0) 0 None.
Proof.
  intros Hm Hs Hrows Hrp Hin Htargets Hcols Hreplace Hds.
  unfold process_data. rewrite Hm, Hs.
  rewrite !decide_False by done.
  assert (preserve_structure self
          && bool_decide (selected_replace_columns self = []) = false) as ->.
  { destruct (preserve_structure self); [|done].
    by rewrite bool_decide_false by auto. }
  rewrite ?decide_False by done.
  unfold DF.with_clean_column at 1. rewrite decide_True by done.
  destruct (add_clean_targets_empty (selected_target_columns self) 0 secondary
              Hrows Hcols) as (work & -> & Hwork).
  destruct (preserve_structure self).
  - unfold add_tracking_columns, DF.set_column_scalar. cbn [rows columns].
    rewrite Hwork. cbn. by rewrite log_statistics_empty.
  - cbn. unfold DF.len. rewrite Hwork. by rewrite log_statistics_empty.
Qed.

Lemma empty_target_completes_witness :
  (process_data (H := Sample.no_close_matches) Sample.tool_empty_target).1
  = Completed (mkStats 0 0 0) 0 None.
Proof.
  apply (empty_target_completes (H := Sample.no_close_matches)
           Sample.tool_empty_target Sample.reference Sample.empty_target).
  - reflexivity.
  - reflexivity.
  - reflexivity.
  - discriminate.
  - cbn [selected_reference_primary Sample.tool_empty_target columns
         Sample.reference]. set_solver.
  - discriminate.
  - apply Forall_cons. split; [|constructor].
    cbn [columns Sample.empty_target]. set_solver.
  - discriminate.
  - discriminate.
Defined.

(* ===================================================================== *)
(** * The matcher's dependence on the settings and on [difflib]           *)
(* ===================================================================== *)

Section settings.
Context (H1 H2 : Difflib) (self1 self2 : app).
Hypothesis same_multivalue : enable_multivalue self1 = enable_multivalue self2.
Hypothesis same_fuzzy :
  ∀ key master_work reference_primary data_source,
    (if fuzzy_matching self1
     then fuzzy_step (H := H1) self1 key master_work reference_primary data_source
     else None)
    = (if fuzzy_matching self2
       then fuzzy_step (H := H2) self2 key master_work reference_primary data_source
       else None).

Lemma find_match_for_value_settings (target_value : string)
    (master_work : DataFrame string) (reference_primary data_source : string)
    (exact_only fuzzy_only : bool) :
  find_match_for_value (H := H1) self1 target_value master_work
    reference_primary data_source exact_only fuzzy_only
  = find_match_for_value (H := H2) self2 target_value master_work
      reference_primary data_source exact_only fuzzy_only.
Proof.
  unfold find_match_for_value. case_decide; [done|].
  destruct (if fuzzy_only then [] else _); [|done].
  destruct exact_only; cbn [negb andb]; [done|]. apply same_fuzzy.
Qed.

Lemma match_sub_values_settings (master_work : DataFrame string)
    (reference_primary data_source : string) (target_values : list string) :
  match_sub_values (H := H1) self1 master_work reference_primary data_source
    target_values
  = match_sub_values (H := H2) self2 master_work reference_primary data_source
      target_values.
Proof.
  unfold match_sub_values. generalize (@nil (option string), @nil string).
  match goal with
  | |- ∀ acc, foldl ?f1 _ _ = foldl ?f2 _ _ =>
      assert (∀ acc v, f1 acc v = f2 acc v) as Hstep
  end.
  { intros [matched_results match_types] v.
    by rewrite find_match_for_value_settings. }
  induction target_values as [|v vs IH]; intros acc; [done|].
  cbn [foldl]. rewrite Hstep. apply IH.
Qed.

Lemma match_column_settings (master_work : DataFrame string)
    (reference_primary data_source target_col : string)
    (row : gmap string string) :
  match_column (H := H1) self1 master_work reference_primary data_source
    target_col row
  = match_column (H := H2) self2 master_work reference_primary data_source
      target_col row.
Proof.
  unfold match_column, multi_value_match, single_value_match.
  rewrite same_multivalue.
  destruct (row !! target_col) as [v|]; [|done].
  case_decide; [done|].
  assert (∀ key,
    (if fuzzy_matching self1
     then with_column target_col
            <$> fuzzy_step (H := H1) self1 key master_work
                  reference_primary data_source
     else None)
    = (if fuzzy_matching self2
       then with_column target_col
              <$> fuzzy_step (H := H2) self2 key master_work
                    reference_primary data_source
       else None)) as Hsingle.
  { intros key.
    pose proof (same_fuzzy key master_work reference_primary data_source) as Hf.
    destruct (fuzzy_matching self1), (fuzzy_matching self2);
      [by rewrite Hf|by rewrite Hf|by rewrite <- Hf|done]. }
  destruct (enable_multivalue self2).
  - destruct (first_delimiter _ _) as [d|]; [|by rewrite Hsingle].
    case_decide; [|by rewrite Hsingle].
    rewrite match_sub_values_settings. by rewrite Hsingle.
  - by rewrite Hsingle.
Qed.

Lemma collect_matches_settings (master_work : DataFrame string)
    (reference_primary data_source : string) (i : nat)
    (target_columns : list string) (row : gmap string string) :
  collect_matches (H := H1) self1 master_work reference_primary data_source
    i target_columns row
  = collect_matches (H := H2) self2 master_work reference_primary data_source
      i target_columns row.
Proof.
  revert i. induction target_columns as [|c cols IH]; intros i; [done|].
  cbn [collect_matches]. by rewrite match_column_settings, IH.
Qed.

Lemma process_rows_settings (master_work : DataFrame string)
    (work_columns : list string) (todo : list (gmap string string)) (st : stats) :
  selected_reference_primary self1 = selected_reference_primary self2 →
  selected_data_source self1 = selected_data_source self2 →
  selected_target_columns self1 = selected_target_columns self2 →
  selected_replace_columns self1 = selected_replace_columns self2 →
  process_rows (H := H1) self1 master_work work_columns todo st
  = process_rows (H := H2) self2 master_work work_columns todo st.
Proof.
  intros Hrp Hds Htc Hrc. revert st.
  induction todo as [|row rest IH]; intros st; [done|].
  cbn [process_rows]. rewrite Hrp, Hds, Htc, Hrc, collect_matches_settings.
  destruct (collect_matches _ _ _ _ _ _ _) as [mf|e]; [|done].
  destruct (update_row _ _ _ _ _) as [r st1]. by rewrite IH.
Qed.
End settings.

(* ===================================================================== *)
(** * Properties of the row loop and of completed runs                    *)
(* ===================================================================== *)

(** [process_data] once the validation has passed and both key columns
    exist. *)
Lemma process_data_validated `{Difflib} (self : app)
    (master target master_work work : DataFrame string) :
  master_df self = Some master →
  secondary_df self = Some target →
  selected_reference_primary self ≠ "" →
  selected_target_columns self ≠ [] →
  preserve_structure self && bool_decide (selected_replace_columns self = [])
  = false →
  selected_data_source self ≠ "" →
  DF.with_clean_column "clean_reference" (selected_reference_primary self) master
  = Some master_work →
  add_clean_targets 0 (selected_target_columns self) target = (work, None) →
  process_data self
  = if preserve_structure self then
      let work := add_tracking_columns work in
      let '(rs, st, e) :=
        process_rows self master_work (columns work) (rows work) (mkStats 0 0 0) in
      let processed := mkDataFrame (columns work) rs in
      match e with
      | Some e => (Failed e, set_secondary_work (Some processed) self)
      | None =>
          let final :=
            DF.drop (cols_to_drop (selected_target_columns self)) processed in
          (log_statistics st (DF.len final), set_secondary_work (Some final) self)
      end
    else
      (log_statistics (mkStats 0 0 0) (DF.len work),
       set_secondary_work (Some (DF.to_values work)) self).
Proof.
  intros Hm Ht Hrp Htc Hrc Hds Hmw Hw. unfold process_data.
  rewrite Hm, Ht. rewrite !decide_False by done. by rewrite Hrc, Hmw, Hw.
Qed.

(** What a completed run went through. *)
Lemma process_data_completed `{Difflib} (self self' : app) (st : stats)
    (total : nat) (pct : option (Q * Q * Q)) :
  process_data self = (Completed st total pct, self') →
  ∃ master target master_work work,
    master_df self = Some master
    ∧ secondary_df self = Some target
    ∧ selected_reference_primary self ≠ ""
    ∧ selected_target_columns self ≠ []
    ∧ preserve_structure self && bool_decide (selected_replace_columns self = [])
      = false
    ∧ selected_data_source self ≠ ""
    ∧ DF.with_clean_column "clean_reference" (selected_reference_primary self)
        master = Some master_work
    ∧ add_clean_targets 0 (selected_target_columns self) target = (work, None)
    ∧ if preserve_structure self then
        ∃ rs,
          process_rows self master_work (columns (add_tracking_columns work))
            (rows (add_tracking_columns work)) (mkStats 0 0 0) = (rs, st, None)
          ∧ self' = set_secondary_work
                      (Some (DF.drop (cols_to_drop (selected_target_columns self))
                               (mkDataFrame (columns (add_tracking_columns work))
                                  rs))) self
          ∧ total = length rs
      else
        st = mkStats 0 0 0
        ∧ self' = set_secondary_work (Some (DF.to_values work)) self
        ∧ total = length (rows work).
Proof.
  unfold process_data.
  destruct (master_df self) as [master|]; [|done].
  destruct (secondary_df self) as [target|]; [|done].
  destruct (decide (selected_reference_primary self = "")); [done|].
  destruct (decide (selected_target_columns self = [])); [done|].
  destruct (preserve_structure self
            && bool_decide (selected_replace_columns self = [])) eqn:Hrc; [done|].
  destruct (decide (selected_data_source self = "")); [done|].
  destruct (DF.with_clean_column _ _ master) as [master_work|] eqn:Hmw; [|done].
  destruct (add_clean_targets _ _ target) as [work [e|]] eqn:Hw; [done|].
  intros Hrun. exists master, target, master_work, work.
  do 8 (split; [done|]).
  destruct (preserve_structure self).
  - cbv zeta in Hrun.
    destruct (process_rows _ _ _ _ _) as [[rs st1] [e|]]; [done|].
    unfold log_statistics in Hrun. injection Hrun as -> <- _ <-.
    exists rs. split; [done|]. split; [done|].
    unfold DF.len, DF.drop. cbn [rows]. by rewrite length_fmap.
  - unfold log_statistics in Hrun. by injection Hrun as <- <- _ <-.
Qed.

Lemma update_row_row (replace_columns work_columns : list string)
    (mf : list (nat * match_info)) (r : gmap string value) (st st0 : stats) :
  (update_row replace_columns work_columns mf r st).1
  = (update_row replace_columns work_columns mf r st0).1.
Proof. by destruct mf. Qed.

(** One iteration of the loop, for a row whose columns raise nothing. *)
Lemma process_rows_cons `{Difflib} (self : app) (master_work : DataFrame string)
    (work_columns : list string) (row : gmap string string)
    (rest : list (gmap string string)) (st : stats)
    (mf : list (nat * match_info)) :
  collect_matches self master_work (selected_reference_primary self)
    (selected_data_source self) 0 (selected_target_columns self) row = Ok mf →
  process_rows self master_work work_columns (row :: rest) st
  = let updated := update_row (selected_replace_columns self) work_columns mf
                     (Str <$> row) st in
    let later := process_rows self master_work work_columns rest updated.2 in
    (updated.1 :: later.1.1, later.1.2, later.2).
Proof.
  intros Hmf. cbn [process_rows]. rewrite Hmf.
  destruct (update_row _ _ _ _ _) as [r st1]. cbn [fst snd].
  by destruct (process_rows _ _ _ _ _) as [[rs st2] e].
Qed.

(** A loop that raises nothing has given every row the cells that the
    row's own entries decide. *)
Lemma process_rows_completed `{Difflib} (self : app) (master_work : DataFrame string)
    (work_columns : list string) (todo : list (gmap string string))
    (st st' : stats) (rs : list (gmap string value)) :
  process_rows self master_work work_columns todo st = (rs, st', None) →
  Forall2 (λ row r,
    ∃ mf, collect_matches self master_work (selected_reference_primary self)
            (selected_data_source self) 0 (selected_target_columns self) row
          = Ok mf
          ∧ ∀ st0, r = (update_row (selected_replace_columns self) work_columns
                          mf (Str <$> row) st0).1) todo rs.
Proof.
  revert st rs. induction todo as [|row rest IH]; intros st rs.
  { cbn [process_rows]. intros [= <- _]. constructor. }
  destruct (collect_matches self master_work (selected_reference_primary self)
              (selected_data_source self) 0 (selected_target_columns self) row)
    as [mf|e] eqn:Hmf.
  - rewrite (process_rows_cons _ _ _ _ _ _ _ Hmf). cbv zeta.
    destruct (process_rows _ _ _ rest _) as [[rs' st2] e'] eqn:Hrest.
    cbn [fst snd]. intros [= <- <- ->].
    constructor; [|by eapply IH].
    exists mf. split; [done|]. intros st0. apply update_row_row.
  - cbn [process_rows]. by rewrite Hmf.
Qed.

Lemma fuzzy_step_type `{Difflib} (self : app) (key : string)
    (master_work : DataFrame string) (reference_primary data_source : string)
    (m : match_result) :
  fuzzy_step self key master_work reference_primary data_source = Some m →
  fm_type m = "FUZZY".
Proof.
  unfold fuzzy_step. intros Hm. repeat (case_match; simplify_eq); done.
Qed.

(** The entry a column stores is EXACT, FUZZY or REVIEW. *)
Lemma match_column_type `{Difflib} (self : app) (master_work : DataFrame string)
    (reference_primary data_source target_col : string)
    (row : gmap string string) (m : match_info) :
  match_column self master_work reference_primary data_source target_col row
  = Ok (Some m) →
  type m = "EXACT" ∨ type m = "FUZZY" ∨ type m = "REVIEW".
Proof.
  assert (∀ key, with_column target_col
                   <$> fuzzy_step self key master_work reference_primary
                         data_source = Some m →
                 type m = "FUZZY") as Hfuzzy.
  { intros key (x & Hx & ->)%fmap_Some. cbn. by eapply fuzzy_step_type. }
  unfold match_column, multi_value_match, combine_sub_values,
    single_value_match.
  intros Hm. repeat (case_match; simplify_eq/=); eauto.
Qed.

Lemma has_match_type_lookup (t t0 : string) (r : gmap string value) :
  r !! "Match_Type" = Some (Str t0) →
  has_match_type t r = bool_decide (t0 = t).
Proof. intros Hr. unfold has_match_type. by rewrite Hr. Qed.

Lemma count_match_type_cons (t : string) (cols : list string)
    (r : gmap string value) (rs : list (gmap string value)) :
  count_match_type t (mkDataFrame cols (r :: rs))
  = ((if has_match_type t r then 1 else 0)
     + count_match_type t (mkDataFrame cols rs))%nat.
Proof.
  unfold count_match_type. cbn [rows]. rewrite filter_cons.
  by destruct (has_match_type t r).
Qed.

(** The label a row gets and the counter it increments. *)
Lemma update_row_label (replace_columns work_columns : list string)
    (mf : list (nat * match_info)) (r : gmap string value) (st : stats) :
  Forall (λ e, type e.2 = "EXACT" ∨ type e.2 = "FUZZY" ∨ type e.2 = "REVIEW") mf →
  ∃ t, (update_row replace_columns work_columns mf r st).1 !! "Match_Type"
       = Some (Str t)
    ∧ ((t = "EXACT"
        ∧ (update_row replace_columns work_columns mf r st).2
          = mkStats (S (exact_matches st)) (fuzzy_matches st) (no_matches st))
       ∨ (t = "FUZZY"
          ∧ (update_row replace_columns work_columns mf r st).2
            = mkStats (exact_matches st) (S (fuzzy_matches st)) (no_matches st))
       ∨ (t = "REVIEW"
          ∧ ((update_row replace_columns work_columns mf r st).2
             = mkStats (exact_matches st) (S (fuzzy_matches st)) (no_matches st)
             ∨ (update_row replace_columns work_columns mf r st).2
               = mkStats (exact_matches st) (fuzzy_matches st)
                   (S (no_matches st))))).
Proof.
  intros Htypes. destruct mf as [|first rest].
  { exists "REVIEW". cbn [update_row fst snd]. unfold DF.set_cell.
    rewrite lookup_partial_alter_eq. eauto 6. }
  destruct (update_row_tracking replace_columns work_columns first rest r st)
    as (Hlabel & _).
  destruct (max_by_confidence_spec first.2 (snd <$> rest))
    as (before & after & Heq & _).
  assert (max_by_confidence first.2 (snd <$> rest) ∈ snd <$> first :: rest)
    as Hin.
  { rewrite fmap_cons, Heq. set_solver. }
  apply list_elem_of_fmap in Hin as (e & Hbest & He).
  rewrite Forall_forall in Htypes. specialize (Htypes e He).
  rewrite <- Hbest in Htypes.
  eexists. split; [exact Hlabel|]. cbn [update_row snd].
  destruct Htypes as [Ht|[Ht|Ht]]; rewrite Ht.
  - left. split; [done|]. by rewrite decide_True.
  - right. left. split; [done|]. by rewrite decide_False.
  - right. right. split; [done|]. left. by rewrite decide_False.
Qed.

(** The counters of a loop that raises nothing, against the labels of the
    rows it has written. *)
Lemma process_rows_counters `{Difflib} (self : app) (master_work : DataFrame string)
    (work_columns cols : list string) (todo : list (gmap string string))
    (st st' : stats) (rs : list (gmap string value)) :
  process_rows self master_work work_columns todo st = (rs, st', None) →
  (exact_matches st' = exact_matches st
                       + count_match_type "EXACT" (mkDataFrame cols rs)
   ∧ fuzzy_matches st' + no_matches st'
     = fuzzy_matches st + no_matches st
       + count_match_type "FUZZY" (mkDataFrame cols rs)
       + count_match_type "REVIEW" (mkDataFrame cols rs)
   ∧ fuzzy_matches st + count_match_type "FUZZY" (mkDataFrame cols rs)
     ≤ fuzzy_matches st'
   ∧ no_matches st ≤ no_matches st'
   ∧ length todo
     = count_match_type "EXACT" (mkDataFrame cols rs)
       + count_match_type "FUZZY" (mkDataFrame cols rs)
       + count_match_type "REVIEW" (mkDataFrame cols rs)
   ∧ length rs = length todo)%nat.
Proof.
  revert st rs. induction todo as [|row rest IH]; intros st rs.
  { cbn [process_rows]. intros [= <- <-]. unfold count_match_type. cbn. lia. }
  destruct (collect_matches self master_work (selected_reference_primary self)
              (selected_data_source self) 0 (selected_target_columns self) row)
    as [mf|e] eqn:Hmf; [|cbn [process_rows]; by rewrite Hmf].
  rewrite (process_rows_cons _ _ _ _ _ _ _ Hmf). cbv zeta.
  destruct (process_rows _ _ _ rest _) as [[rs' st2] e'] eqn:Hrest.
  cbn [fst snd]. intros [= <- <- ->].
  apply IH in Hrest as (IHe & IHf & IHz & IHn & IHl & IHlen).
  assert (Forall (λ e, type e.2 = "EXACT" ∨ type e.2 = "FUZZY"
                       ∨ type e.2 = "REVIEW") mf) as Htypes.
  { apply collect_matches_spec in Hmf as [_ Hall].
    eapply Forall_impl; [exact Hall|]. intros e (_ & _ & Hcol).
    by eapply match_column_type. }
  destruct (update_row_label (selected_replace_columns self) work_columns mf
              (Str <$> row) st Htypes) as (t & Hlabel & Hcases).
  rewrite !count_match_type_cons, !(has_match_type_lookup _ t) by done.
  cbn [length].
  destruct Hcases as [[-> Hst]|[[-> Hst]|[-> [Hst|Hst]]]];
    rewrite Hst in IHe, IHf, IHz, IHn;
    cbn [exact_matches fuzzy_matches no_matches] in IHe, IHf, IHz, IHn;
    repeat first [rewrite bool_decide_eq_true_2 by done
                 |rewrite bool_decide_eq_false_2 by done];
    lia.
Qed.

(** The clean target columns are computed row by row: the table after
    lines 1805-1806 has the rows of the table before, each with the cells
    [clean_target_i] set and no other cell touched. *)
Lemma add_clean_targets_rowwise (target_columns : list string) (i : nat)
    (cols : list string) (rws : list (gmap string string))
    (work : DataFrame string) :
  add_clean_targets i target_columns (mkDataFrame cols rws) = (work, None) →
  ∃ cols' g,
    (∀ rws2, add_clean_targets i target_columns (mkDataFrame cols rws2)
             = (mkDataFrame cols' (g <$> rws2), None))
    ∧ ∀ (r : gmap string string) c,
        c ∉ clean_target <$> seq i (length target_columns) → g r !! c = r !! c.
Proof.
  revert i cols rws work.
  induction target_columns as [|target_col rest IH]; intros i cols rws work.
  { intros _. exists cols, id. split; [|done].
    intros rws2. cbn [add_clean_targets]. by rewrite list_fmap_id. }
  cbn [add_clean_targets]. unfold DF.with_clean_column. cbn [columns rows].
  destruct (decide (target_col ∈ cols)) as [Hin|]; [|done].
  intros Hrest. apply IH in Hrest as (cols' & g & Hg & Hother).
  exists cols', (g ∘ (λ r, <[clean_target i := clean_name (r !! target_col)]> r)).
  split.
  - intros rws2. rewrite Hg. by rewrite <- list_fmap_compose.
  - intros r c Hc. cbn [length seq fmap list_fmap] in Hc.
    apply not_elem_of_cons in Hc as [Hi Hlater].
    unfold compose. rewrite Hother by done. by rewrite lookup_insert_ne.
Qed.

Lemma elem_of_tracking_columns (c : string) :
  c ∈ tracking_columns
  ↔ c = "Match_Type" ∨ c = "Matched_Reference_Name"
    ∨ c = "Confidence" ∨ c = "Matched_Column".
Proof.
  unfold tracking_columns. rewrite !elem_of_cons, elem_of_nil. tauto.
Qed.

Lemma not_elem_of_tracking_columns (c : string) :
  c ∉ tracking_columns
  ↔ c ≠ "Match_Type" ∧ c ≠ "Matched_Reference_Name"
    ∧ c ≠ "Confidence" ∧ c ≠ "Matched_Column".
Proof. rewrite elem_of_tracking_columns. tauto. Qed.

Lemma clean_target_ne (i : nat) (c : string) :
  c ∈ tracking_columns → clean_target i ≠ c.
Proof.
  unfold clean_target. cbn [String.app].
  intros [-> | [-> | [-> | ->]]]%elem_of_tracking_columns; discriminate.
Qed.

Lemma tracking_not_dropped (target_columns : list string) (c : string) :
  c ∈ tracking_columns → c ∉ cols_to_drop target_columns.
Proof.
  intros Hc. unfold cols_to_drop. apply not_elem_of_cons. split.
  - apply elem_of_tracking_columns in Hc as [-> | [-> | [-> | ->]]]; discriminate.
  - intros (i & Hi & _)%list_elem_of_fmap. by eapply clean_target_ne.
Qed.

Lemma lookup_foldr_delete {V} (r : gmap string V) (l : list string) (c : string) :
  c ∉ l → foldr delete r l !! c = r !! c.
Proof.
  induction l as [|x l IH]; [done|]. intros [Hx Hl]%not_elem_of_cons.
  cbn [foldr]. rewrite lookup_delete_ne by done. by apply IH.
Qed.

(** [drop] leaves the cells of the columns it does not drop. *)
Lemma drop_rows_lookup {V} (cols : list string) (df : DataFrame V) (c : string) :
  c ∉ cols →
  Forall2 (λ r r', r' !! c = r !! c) (rows df) (rows (DF.drop cols df)).
Proof.
  intros Hc. unfold DF.drop. cbn [rows]. apply Forall2_fmap_r, Forall_Forall2_diag.
  apply Forall_forall. intros r _. apply lookup_foldr_delete.
  intros [_ Hin]%list_elem_of_filter. done.
Qed.

Lemma count_match_type_drop (t : string) (target_columns : list string)
    (df : DataFrame value) :
  count_match_type t (DF.drop (cols_to_drop target_columns) df)
  = count_match_type t df.
Proof.
  assert ("Match_Type" ∉ cols_to_drop target_columns) as Hkept.
  { apply tracking_not_dropped, elem_of_tracking_columns. by left. }
  unfold count_match_type.
  pose proof (drop_rows_lookup _ df _ Hkept) as Hrows.
  induction Hrows as [|r r' rs rs' Hr Hrows IH]; [done|].
  assert (has_match_type t r' = has_match_type t r) as Hsame.
  { unfold has_match_type. by rewrite Hr. }
  rewrite !filter_cons.
  destruct (decide (has_match_type t r')) as [Hl|Hl],
    (decide (has_match_type t r)) as [Hl'|Hl']; rewrite Hsame in Hl;
    try done; cbn [length]; by rewrite IH.
Qed.

Lemma write_replace_columns_other (replace_columns work_columns : list string)
    (mf : list (nat * match_info)) (r : gmap string value) (c : string) :
  c ∉ replace_columns →
  foldl (write_replace_column replace_columns work_columns) r mf !! c = r !! c.
Proof.
  intros Hc. revert r. induction mf as [|e mf IH]; intros r; [done|].
  cbn [foldl]. rewrite IH. unfold write_replace_column, replace_target.
  destruct (replace_columns !! e.1) as [replace_col|] eqn:He; [|done].
  case_decide; [|done]. unfold DF.set_cell.
  rewrite lookup_partial_alter_ne; [done|].
  intros ->. apply Hc. by eapply list_elem_of_lookup_2.
Qed.

(** A row's update writes the paired replace columns and the tracking
    columns only. *)
Lemma update_row_other (replace_columns work_columns : list string)
    (mf : list (nat * match_info)) (r : gmap string value) (st : stats)
    (c : string) :
  c ∉ replace_columns → c ∉ tracking_columns →
  (update_row replace_columns work_columns mf r st).1 !! c = r !! c.
Proof.
  intros Hrc (? & ? & ? & ?)%not_elem_of_tracking_columns.
  destruct mf as [|first rest]; cbn [update_row fst]; unfold DF.set_cell.
  - by rewrite lookup_partial_alter_ne.
  - rewrite !lookup_partial_alter_ne by done.
    by apply write_replace_columns_other.
Qed.

Lemma add_tracking_columns_other (work : DataFrame string) (c : string) :
  c ∉ tracking_columns →
  Forall2 (λ r r', r' !! c = r !! c) (rows work) (rows (add_tracking_columns work)).
Proof.
  intros (? & ? & ? & ?)%not_elem_of_tracking_columns.
  unfold add_tracking_columns, DF.set_column_scalar. cbn [rows].
  rewrite <- !list_fmap_compose. apply Forall2_fmap_r, Forall_Forall2_diag.
  apply Forall_forall. intros r _. unfold compose.
  by rewrite !lookup_insert_ne.
Qed.

Lemma add_tracking_columns_length (work : DataFrame string) :
  length (rows (add_tracking_columns work)) = length (rows work).
Proof.
  unfold add_tracking_columns, DF.set_column_scalar. cbn [rows].
  by rewrite !length_fmap.
Qed.

Lemma run_of_outcome (run : run_outcome * app) (outcome : run_outcome) :
  run.1 = outcome → run = (outcome, run.2).
Proof. destruct run as [o s]. cbn. by intros ->. Defined.

(** The facts about a completed run that preserves the structure, from
    which the next theorems are read off. *)
Lemma completed_run_counters `{Difflib} (self self' : app) (st : stats)
    (total : nat) (pct : option (Q * Q * Q)) :
  process_data self = (Completed st total pct, self') →
  preserve_structure self = true →
  ∃ target final,
    secondary_df self = Some target
    ∧ secondary_work self' = Some final
    ∧ (total = DF.len target
       ∧ total = DF.len final
       ∧ exact_matches st = count_match_type "EXACT" final
       ∧ fuzzy_matches st + no_matches st
         = count_match_type "FUZZY" final + count_match_type "REVIEW" final
       ∧ count_match_type "FUZZY" final ≤ fuzzy_matches st
       ∧ no_matches st ≤ count_match_type "REVIEW" final
       ∧ total = count_match_type "EXACT" final + count_match_type "FUZZY" final
                 + count_match_type "REVIEW" final)%nat.
Proof.
  intros Hrun Hpreserve.
  apply process_data_completed in Hrun
    as (master & target & master_work & work & _ & Htarget & _ & _ & _ & _ & _
        & Hwork & Hloop).
  rewrite Hpreserve in Hloop. destruct Hloop as (rs & Hrows & -> & ->).
  exists target. eexists. split; [done|]. split; [reflexivity|].
  rewrite !count_match_type_drop.
  destruct target as [cols rws].
  destruct (add_clean_targets_rowwise _ _ _ _ _ Hwork) as (cols' & g & Hg & _).
  rewrite Hg in Hwork. injection Hwork as <-.
  apply (process_rows_counters _ _ _
           (columns (add_tracking_columns (mkDataFrame cols' (g <$> rws)))))
    in Hrows as (He & Hf & Hz & Hn & Hl & Hlen).
  rewrite add_tracking_columns_length in Hl, Hlen.
  cbn [rows] in Hl, Hlen. rewrite length_fmap in Hl, Hlen.
  cbn [exact_matches fuzzy_matches no_matches] in He, Hf, Hz, Hn.
  unfold DF.len, DF.drop. cbn [rows]. rewrite length_fmap.
  repeat split; lia.
Qed.

(** X4.  A completed run that preserves the structure has counted every
    row of the target table exactly once: the three counters add up to
    [total_records], which is the number of rows of the loaded target and
    of the working table the run leaves. *)
Theorem statistics_partition_rows `{Difflib} (self self' : app) (st : stats)
    (total : nat) (pct : option (Q * Q * Q)) :
  process_data self = (Completed st total pct, self') →
  preserve_structure self = true →
  (exact_matches st + fuzzy_matches st + no_matches st)%nat = total
  ∧ DF.len <$> secondary_df self = Some total
  ∧ DF.len <$> secondary_work self' = Some total.
Proof.
  intros Hrun Hpreserve.
  destruct (completed_run_counters _ _ _ _ _ Hrun Hpreserve)
    as (target & final & -> & -> & Ht & Hf & He & Hfn & _ & _ & Hsum).
  cbn [fmap option_fmap option_map]. rewrite <- Ht, <- Hf.
  split; [lia|done].
Qed.

Lemma statistics_partition_rows_witness :
  (3 + 0 + 0)%nat = 3%nat
  ∧ DF.len <$> secondary_df Sample.tool = Some 3%nat
  ∧ DF.len <$> secondary_work
                 (process_data (H := Sample.no_close_matches) Sample.tool).2
    = Some 3%nat.
Proof.
  assert ((process_data (H := Sample.no_close_matches) Sample.tool).1
          = Completed (mkStats 3 0 0) 3 (Some (300 # 3, 0 # 3, 0 # 3))) as Hrun
    by (by vm_compute).
  exact (statistics_partition_rows (H := Sample.no_close_matches) Sample.tool
           _ _ _ _ (run_of_outcome _ _ Hrun) eq_refl).
Defined.

(** X5.  After a completed run that preserves the structure every row of
    the working table carries one of the labels EXACT, FUZZY and REVIEW in
    [Match_Type].  [exact_matches] is the number of rows labelled EXACT;
    [fuzzy_matches] and [no_matches] together are the number of rows
    labelled FUZZY or REVIEW, with at least as many rows counted fuzzy as
    are labelled FUZZY and at most as many rows counted unmatched as are
    labelled REVIEW. *)
Theorem counters_against_labels `{Difflib} (self self' : app) (st : stats)
    (total : nat) (pct : option (Q * Q * Q)) :
  process_data self = (Completed st total pct, self') →
  preserve_structure self = true →
  ∃ final,
    secondary_work self' = Some final
    ∧ (DF.len final
       = count_match_type "EXACT" final + count_match_type "FUZZY" final
         + count_match_type "REVIEW" final
       ∧ exact_matches st = count_match_type "EXACT" final
       ∧ fuzzy_matches st + no_matches st
         = count_match_type "FUZZY" final + count_match_type "REVIEW" final
       ∧ count_match_type "FUZZY" final ≤ fuzzy_matches st
       ∧ no_matches st ≤ count_match_type "REVIEW" final)%nat.
Proof.
  intros Hrun Hpreserve.
  destruct (completed_run_counters _ _ _ _ _ Hrun Hpreserve)
    as (target & final & _ & -> & _ & Hf & He & Hfn & Hz & Hn & Hsum).
  exists final. split; [done|]. repeat split; try done. lia.
Qed.

Lemma counters_against_labels_witness :
  ∃ final,
    secondary_work
      (process_data (H := Sample.no_close_matches) Sample.tool_unknown_names).2
    = Some final
    ∧ (DF.len final
       = count_match_type "EXACT" final + count_match_type "FUZZY" final
         + count_match_type "REVIEW" final
       ∧ 0 = count_match_type "EXACT" final
       ∧ 1 + 0
         = count_match_type "FUZZY" final + count_match_type "REVIEW" final
       ∧ count_match_type "FUZZY" final ≤ 1
       ∧ 0 ≤ count_match_type "REVIEW" final)%nat.
Proof.
  assert ((process_data (H := Sample.no_close_matches)
             Sample.tool_unknown_names).1
          = Completed (mkStats 0 1 0) 1 (Some (0 # 1, 100 # 1, 0 # 1))) as Hrun
    by (by vm_compute).
  exact (counters_against_labels (H := Sample.no_close_matches)
           Sample.tool_unknown_names
           _ _ _ _ (run_of_outcome _ _ Hrun) eq_refl).
Defined.

(** X6.  A completed run changes no cell outside the columns it is
    configured to write: in every row, a column that is not a selected
    replace column, not a tracking column and not a temporary key column
    holds after the run what the loaded target table holds.  Without
    [preserve_structure] this covers every column but the
    [clean_target_i]. *)
Theorem unselected_columns_unchanged `{Difflib} (self self' : app) (st : stats)
    (total : nat) (pct : option (Q * Q * Q)) (target : DataFrame string) :
  process_data self = (Completed st total pct, self') →
  secondary_df self = Some target →
  ∃ final,
    secondary_work self' = Some final
    ∧ Forall2 (λ row r,
        ∀ c, c ∉ selected_replace_columns self → c ∉ tracking_columns →
             c ∉ cols_to_drop (selected_target_columns self) →
             r !! c = Str <$> row !! c) (rows target) (rows final).
Proof.
  intros Hrun Htarget.
  apply process_data_completed in Hrun
    as (master & target' & master_work & work & _ & Htarget' & _ & _ & _ & _ & _
        & Hwork & Hloop).
  rewrite Htarget in Htarget'. injection Htarget' as <-.
  destruct target as [cols rws].
  destruct (add_clean_targets_rowwise _ _ _ _ _ Hwork) as (cols' & g & Hg & Hother).
  rewrite Hg in Hwork. injection Hwork as <-. cbn [rows].
  assert (∀ c, c ∉ cols_to_drop (selected_target_columns self) →
               c ∉ clean_target <$> seq 0 (length (selected_target_columns self)))
    as Hkey.
  { intros c Hc Hin. apply Hc. unfold cols_to_drop. by right. }
  destruct (preserve_structure self).
  - destruct Hloop as (rs & Hrows & -> & ->). eexists. split; [reflexivity|].
    apply process_rows_completed in Hrows.
    apply Forall2_same_length_lookup. split.
    { unfold DF.drop. cbn [rows]. rewrite length_fmap.
      apply Forall2_length in Hrows.
      rewrite add_tracking_columns_length in Hrows. cbn [rows] in Hrows.
      by rewrite length_fmap in Hrows. }
    intros i row r3 Hrow Hr3 c Hrc Htr Hdrop.
    assert (rows (mkDataFrame cols' (g <$> rws)) !! i = Some (g row)) as Hgrow.
    { cbn [rows]. by rewrite list_lookup_fmap, Hrow. }
    destruct (Forall2_lookup_l _ _ _ _ _
                (add_tracking_columns_other (mkDataFrame cols' (g <$> rws)) c Htr)
                Hgrow) as (r1 & Hr1 & Hc1).
    destruct (Forall2_lookup_l _ _ _ _ _ Hrows Hr1)
      as (r2 & Hr2 & mf & _ & Hupdate).
    pose proof (drop_rows_lookup _
                  (mkDataFrame (columns (add_tracking_columns
                                           (mkDataFrame cols' (g <$> rws)))) rs)
                  c Hdrop) as Hdropped.
    destruct (Forall2_lookup_l _ _ _ _ _ Hdropped Hr2) as (r3' & Hr3' & Hc3).
    rewrite Hr3 in Hr3'. injection Hr3' as <-.
    rewrite Hc3, (Hupdate (mkStats 0 0 0)), update_row_other by done.
    rewrite lookup_fmap, Hc1. by rewrite Hother by auto.
  - destruct Hloop as (_ & -> & _). eexists. split; [reflexivity|].
    unfold DF.to_values. cbn [rows].
    apply Forall2_fmap_r, Forall2_fmap_r, Forall_Forall2_diag, Forall_forall.
    intros row _ c _ _ Hdrop. rewrite lookup_fmap. by rewrite Hother by auto.
Qed.

Lemma unselected_columns_unchanged_witness :
  ∃ final,
    secondary_work (process_data (H := Sample.no_close_matches) Sample.tool).2
    = Some final
    ∧ Forall2 (λ row r,
        ∀ c, c ∉ selected_replace_columns Sample.tool → c ∉ tracking_columns →
             c ∉ cols_to_drop (selected_target_columns Sample.tool) →
             r !! c = Str <$> row !! c) (rows Sample.target) (rows final).
Proof.
  assert ((process_data (H := Sample.no_close_matches) Sample.tool).1
          = Completed (mkStats 3 0 0) 3 (Some (300 # 3, 0 # 3, 0 # 3))) as Hrun
    by (by vm_compute).
  exact (unselected_columns_unchanged (H := Sample.no_close_matches) Sample.tool
           _ _ _ _ Sample.target (run_of_outcome _ _ Hrun) eq_refl).
Defined.

(** X7.  Rows are reconciled independently of one another: the row a
    completed run leaves at position [i] of the working table is the row
    that a run with the same reference table and the same settings leaves
    for a target table consisting of row [i] alone, and that run
    completes as well. *)
Theorem rows_reconciled_independently `{Difflib} (self self' : app) (st : stats)
    (total : nat) (pct : option (Q * Q * Q)) (target : DataFrame string)
    (i : nat) (row : gmap string string) :
  process_data self = (Completed st total pct, self') →
  secondary_df self = Some target →
  rows target !! i = Some row →
  ∃ st1 pct1 self1' r,
    process_data
      (set_secondary_df (Some (mkDataFrame (columns target) [row])) self)
    = (Completed st1 1 pct1, self1')
    ∧ rows <$> secondary_work self1' = Some [r]
    ∧ secondary_work self' ≫= (λ final, rows final !! i) = Some r.
Proof.
  intros Hrun Htarget Hrow.
  apply process_data_completed in Hrun
    as (master & target' & master_work & work & Hmaster & Htarget' & Hrp & Htc
        & Hrc & Hds & Hmw & Hwork & Hloop).
  rewrite Htarget in Htarget'. injection Htarget' as <-.
  destruct target as [cols rws]. cbn [rows columns] in *.
  destruct (add_clean_targets_rowwise _ _ _ _ _ Hwork) as (cols' & g & Hg & _).
  rewrite Hg in Hwork. injection Hwork as <-.
  set (self1 := set_secondary_df (Some (mkDataFrame cols [row])) self).
  pose proof (process_data_validated self1 master (mkDataFrame cols [row])
                master_work (mkDataFrame cols' (g <$> [row]))
                Hmaster eq_refl Hrp Htc Hrc Hds Hmw (Hg [row])) as Hsingle.
  change (preserve_structure self1) with (preserve_structure self) in Hsingle.
  change (selected_target_columns self1) with (selected_target_columns self)
    in Hsingle.
  destruct (preserve_structure self).
  - destruct Hloop as (rs & Hrows & -> & _).
    apply process_rows_completed in Hrows.
    assert (rows (add_tracking_columns (mkDataFrame cols' (g <$> rws))) !! i
            = head (rows (add_tracking_columns (mkDataFrame cols' (g <$> [row])))))
      as Hi.
    { unfold add_tracking_columns, DF.set_column_scalar. cbn [rows].
      rewrite !list_lookup_fmap, Hrow. done. }
    cbv zeta in Hsingle.
    change (columns (add_tracking_columns (mkDataFrame cols' (g <$> [row]))))
      with (columns (add_tracking_columns (mkDataFrame cols' (g <$> rws))))
      in Hsingle.
    destruct (rows (add_tracking_columns (mkDataFrame cols' (g <$> [row]))))
      as [|r1 [|? ?]] eqn:Hone; try discriminate Hone.
    cbn [head] in Hi.
    destruct (Forall2_lookup_l _ _ _ _ _ Hrows Hi) as (r2 & Hr2 & mf & Hmf & Hr).
    rewrite (process_rows_settings H H self1 self eq_refl
               (λ _ _ _ _, eq_refl) _ _ _ _ eq_refl eq_refl eq_refl eq_refl)
      in Hsingle.
    rewrite (process_rows_cons _ _ _ _ _ _ _ Hmf) in Hsingle.
    cbv zeta in Hsingle. cbn [process_rows fst snd] in Hsingle.
    rewrite <- (Hr (mkStats 0 0 0)) in Hsingle.
    unfold log_statistics in Hsingle.
    do 4 eexists. split; [exact Hsingle|].
    cbn [set_secondary_work secondary_work fmap option_fmap option_map mbind
         option_bind]. unfold DF.drop. cbn [rows columns].
    split; [reflexivity|]. by rewrite list_lookup_fmap, Hr2.
  - destruct Hloop as (_ & -> & _). unfold log_statistics in Hsingle.
    do 4 eexists. split; [exact Hsingle|].
    cbn [set_secondary_work secondary_work fmap option_fmap option_map mbind
         option_bind]. unfold DF.to_values. cbn [rows columns].
    split; [reflexivity|]. by rewrite !list_lookup_fmap, Hrow.
Qed.

Lemma rows_reconciled_independently_witness :
  ∃ st1 pct1 self1' r,
    process_data (H := Sample.no_close_matches)
      (set_secondary_df
         (Some (mkDataFrame (columns Sample.target)
                  [ {[ "FullName" := "John Smith, Jane Doe";
                       "EmployeeID" := "?" ]} ]))
         Sample.tool)
    = (Completed st1 1 pct1, self1')
    ∧ rows <$> secondary_work self1' = Some [r]
    ∧ secondary_work (process_data (H := Sample.no_close_matches) Sample.tool).2
      ≫= (λ final, rows final !! 1%nat) = Some r.
Proof.
  assert ((process_data (H := Sample.no_close_matches) Sample.tool).1
          = Completed (mkStats 3 0 0) 3 (Some (300 # 3, 0 # 3, 0 # 3))) as Hrun
    by (by vm_compute).
  exact (rows_reconciled_independently (H := Sample.no_close_matches)
           Sample.tool _ _ _ _ Sample.target 1 _
           (run_of_outcome _ _ Hrun) eq_refl eq_refl).
Defined.

(** X8.  With [preserve_structure] switched off a run matches nothing:
    it completes with all three counters 0, and the working table it
    leaves is the loaded target with the [clean_target_i] columns added
    and every other cell as loaded. *)
Theorem nothing_matched_without_preserve_structure `{Difflib} (self self' : app)
    (st : stats) (total : nat) (pct : option (Q * Q * Q)) :
  process_data self = (Completed st total pct, self') →
  preserve_structure self = false →
  st = mkStats 0 0 0
  ∧ ∃ target final,
      secondary_df self = Some target
      ∧ secondary_work self' = Some final
      ∧ total = DF.len target
      ∧ Forall2 (λ row r,
          ∀ c, c ∉ clean_target <$> seq 0 (length (selected_target_columns self)) →
               r !! c = Str <$> row !! c) (rows target) (rows final).
Proof.
  intros Hrun Hpreserve.
  apply process_data_completed in Hrun
    as (master & target & master_work & work & _ & Htarget & _ & _ & _ & _ & _
        & Hwork & Hloop).
  rewrite Hpreserve in Hloop. destruct Hloop as (-> & -> & ->).
  split; [done|]. exists target. eexists.
  split; [done|]. split; [reflexivity|].
  destruct target as [cols rws].
  destruct (add_clean_targets_rowwise _ _ _ _ _ Hwork) as (cols' & g & Hg & Hother).
  rewrite Hg in Hwork. injection Hwork as <-.
  unfold DF.to_values, DF.len. cbn [rows]. split; [by rewrite length_fmap|].
  apply Forall2_fmap_r, Forall2_fmap_r, Forall_Forall2_diag, Forall_forall.
  intros row _ c Hc. rewrite lookup_fmap. by rewrite Hother.
Qed.

Lemma nothing_matched_without_preserve_structure_witness :
  mkStats 0 0 0 = mkStats 0 0 0
  ∧ ∃ target final,
      secondary_df Sample.tool_no_preserve = Some target
      ∧ secondary_work
          (process_data (H := Sample.no_close_matches) Sample.tool_no_preserve).2
        = Some final
      ∧ 3%nat = DF.len target
      ∧ Forall2 (λ row r,
          ∀ c, c ∉ clean_target
                   <$> seq 0 (length (selected_target_columns
                                        Sample.tool_no_preserve)) →
               r !! c = Str <$> row !! c) (rows target) (rows final).
Proof.
  assert ((process_data (H := Sample.no_close_matches)
             Sample.tool_no_preserve).1
          = Completed (mkStats 0 0 0) 3 (Some (0 # 3, 0 # 3, 0 # 3))) as Hrun
    by (by vm_compute).
  exact (nothing_matched_without_preserve_structure
           (H := Sample.no_close_matches) Sample.tool_no_preserve
           _ _ _ _ (run_of_outcome _ _ Hrun) eq_refl).
Defined.

(** X9.  With fuzzy matching switched off the run never consults
    [difflib]: whatever [get_close_matches] and [SequenceMatcher] would
    answer, the outcome and the resulting state are the same. *)
Theorem fuzzy_off_ignores_difflib (H1 H2 : Difflib) (self : app) :
  fuzzy_matching self = false →
  process_data (H := H1) self = process_data (H := H2) self.
Proof.
  intros Hoff. unfold process_data.
  destruct (master_df self) as [master|]; [|done].
  destruct (secondary_df self) as [target|]; [|done].
  destruct (decide (selected_reference_primary self = "")); [done|].
  destruct (decide (selected_target_columns self = [])); [done|].
  destruct (preserve_structure self
            && bool_decide (selected_replace_columns self = [])); [done|].
  destruct (decide (selected_data_source self = "")); [done|].
  destruct (DF.with_clean_column _ _ master) as [master_work|]; [|done].
  destruct (add_clean_targets _ _ target) as [work [e|]]; [done|].
  destruct (preserve_structure self); [|done]. cbv zeta.
  rewrite (process_rows_settings H1 H2 self self eq_refl); try done.
  intros key mw rp ds. by rewrite Hoff.
Qed.

Lemma fuzzy_off_ignores_difflib_witness :
  process_data (H := Sample.no_close_matches) Sample.tool
  = process_data (H := Sample.first_is_close) Sample.tool.
Proof.
  exact (fuzzy_off_ignores_difflib Sample.no_close_matches Sample.first_is_close
           Sample.tool eq_refl).
Defined.

(** X10.  The single-value block of the row loop (lines 1888-1930) and
    [find_match_for_value] with its default flags are the same matcher: a
    value is matched alone in a cell exactly as it is matched as a
    sub-value of a multi-valued field. *)
Theorem single_value_is_find_match `{Difflib} (self : app)
    (master_work : DataFrame string) (reference_primary data_source : string)
    (target_col target_value : string) :
  single_value_match self master_work reference_primary data_source
    target_col target_value
  = with_column target_col
      <$> find_match_for_value self target_value master_work
            reference_primary data_source false false.
Proof.
  unfold single_value_match, find_match_for_value.
  case_decide; [done|].
  destruct (where_clean_reference master_work _) as [|r rest]; [|done].
  cbn [negb andb]. by destruct (fuzzy_matching self).
Qed.

(* ===================================================================== *)
(** * Runs, replacements and the undo snapshot                            *)
(* ===================================================================== *)

(** X11.  A run starts from the loaded target table, never from the
    working table of an earlier run: its outcome does not depend on the
    working table or on the undo snapshot, and when it gets past the
    validation, neither does the working table it leaves, so an earlier
    whole-column replacement is gone.  The undo snapshot itself is never
    touched by a run and stays available afterwards. *)
Theorem run_ignores_earlier_work `{Difflib} (self : app)
    (work : option (DataFrame value)) (data : option (list (option value)))
    (name : option string) :
  let edited := set_undo data name (set_secondary_work work self) in
  (process_data edited).1 = (process_data self).1
  ∧ (secondary_work (process_data edited).2 = secondary_work (process_data self).2
     ∨ ((process_data edited).2 = edited ∧ (process_data self).2 = self))
  ∧ undo_col_data (process_data edited).2 = data
  ∧ undo_col_name (process_data edited).2 = name.
Proof.
  intros edited. unfold process_data.
  change (master_df edited) with (master_df self).
  change (secondary_df edited) with (secondary_df self).
  change (selected_reference_primary edited) with (selected_reference_primary self).
  change (selected_target_columns edited) with (selected_target_columns self).
  change (selected_replace_columns edited) with (selected_replace_columns self).
  change (selected_data_source edited) with (selected_data_source self).
  change (preserve_structure edited) with (preserve_structure self).
  destruct (master_df self) as [master|]; [|by auto].
  destruct (secondary_df self) as [target|]; [|by auto].
  destruct (decide (selected_reference_primary self = "")); [by auto|].
  destruct (decide (selected_target_columns self = [])); [by auto|].
  destruct (preserve_structure self
            && bool_decide (selected_replace_columns self = [])); [by auto|].
  destruct (decide (selected_data_source self = "")); [by auto|].
  destruct (DF.with_clean_column _ _ master) as [master_work|]; [|by auto].
  destruct (add_clean_targets _ _ target) as [work' [e|]]; [by auto|].
  destruct (preserve_structure self); [|by auto]. cbv zeta.
  rewrite (process_rows_settings H H edited self eq_refl
             (λ _ _ _ _, eq_refl) _ _ _ _ eq_refl eq_refl eq_refl eq_refl).
  destruct (process_rows self _ _ _ _) as [[rs st] [e|]]; by auto.
Qed.

(** X12.  Undo is single-level.  After two whole-column replacements in a
    row, the undo takes back the second only: the working table is again
    the table after the first replacement, whose column still holds the
    first replacement value in every row, and a further undo finds
    nothing to restore. *)
Theorem undo_is_single_level (self : app) (work : DataFrame value)
    (col1 val1 col2 val2 : string) :
  secondary_work self = Some work →
  col1 ≠ "" → col1 ∈ columns work →
  col2 ≠ "" → col2 ∈ columns work →
  let once := (replace_entire_column (choose_replacement col1 val1 self)).2 in
  let twice := (replace_entire_column (choose_replacement col2 val2 once)).2 in
  let undone := (undo_replace_column twice).2 in
  secondary_work once = Some (DF.set_column_scalar col1 (Str val1) work)
  ∧ (undo_replace_column twice).1 = ShowInfo "Undo Complete"
  ∧ secondary_work undone = secondary_work once
  ∧ undo_replace_column undone = (ShowWarning "Nothing to Undo", undone).
Proof.
  intros Hwork Hcol1 Hin1 Hcol2 Hin2 once twice undone.
  subst undone twice once.
  rewrite (replace_entire_column_done (choose_replacement col1 val1 self) work)
    by done.
  cbn [snd choose_replacement replace_col_combo replace_col_value].
  set (work1 := DF.set_column_scalar col1 (Str val1) work).
  assert (col2 ∈ columns work1) as Hin2'.
  { subst work1. unfold DF.set_column_scalar. cbn [columns].
    by rewrite add_column_present. }
  erewrite (replace_entire_column_done (choose_replacement col2 val2 _) work1);
    [|reflexivity|done|done].
  cbn [snd choose_replacement replace_col_combo replace_col_value].
  erewrite undo_replace_column_done by reflexivity.
  cbn [fst snd set_undo set_secondary_work choose_replacement secondary_work
       undo_col_data undo_col_name].
  rewrite set_column_scalar_undone by done.
  repeat split.
Qed.

Lemma undo_is_single_level_witness :
  secondary_work
    (replace_entire_column
       (choose_replacement "Status" "Reviewed" Sample.tool_processed)).2
  = Some (DF.set_column_scalar "Status" (Str "Reviewed") Sample.processed)
  ∧ (undo_replace_column
       (replace_entire_column
          (choose_replacement "EmployeeID" "000"
             (replace_entire_column
                (choose_replacement "Status" "Reviewed"
                   Sample.tool_processed)).2)).2).1
    = ShowInfo "Undo Complete"
  ∧ secondary_work
      (undo_replace_column
         (replace_entire_column
            (choose_replacement "EmployeeID" "000"
               (replace_entire_column
                  (choose_replacement "Status" "Reviewed"
                     Sample.tool_processed)).2)).2).2
    = secondary_work
        (replace_entire_column
           (choose_replacement "Status" "Reviewed" Sample.tool_processed)).2
  ∧ undo_replace_column
      (undo_replace_column
         (replace_entire_column
            (choose_replacement "EmployeeID" "000"
               (replace_entire_column
                  (choose_replacement "Status" "Reviewed"
                     Sample.tool_processed)).2)).2).2
    = (ShowWarning "Nothing to Undo",
       (undo_replace_column
          (replace_entire_column
             (choose_replacement "EmployeeID" "000"
                (replace_entire_column
                   (choose_replacement "Status" "Reviewed"
                      Sample.tool_processed)).2)).2).2).
Proof.
  assert ("Status" ∈ columns Sample.processed) as Hin1
    by (cbn [columns Sample.processed]; rewrite !elem_of_cons; auto).
  assert ("EmployeeID" ∈ columns Sample.processed) as Hin2
    by (cbn [columns Sample.processed]; rewrite !elem_of_cons; auto).
  exact (undo_is_single_level Sample.tool_processed Sample.processed
           "Status" "Reviewed" "EmployeeID" "000"
           eq_refl ltac:(discriminate) Hin1 ltac:(discriminate) Hin2).
Defined.

(** X13.  The preview shows what the replacement would write: for a
    non-empty column choice it shows one column, with the replacement
    value in each of the first 10 rows (all rows of a shorter table).  For
    a column of the working table this is the top of that column as
    [replace_entire_column] then leaves it; for a label the working table
    does not have, the preview is still shown, whereas the replacement
    itself raises [KeyError] and changes nothing. *)
Theorem preview_shows_replacement (self : app) (work : DataFrame value) :
  secondary_work self = Some work →
  replace_col_combo self ≠ "" →
  ∃ shown,
    preview_replace_column self = (ShowInfo "Preview Replacement", Some shown)
    ∧ columns shown = [replace_col_combo self]
    ∧ rows shown
      = replicate (10 `min` DF.len work)
          {[ replace_col_combo self := Str (replace_col_value self) ]}
    ∧ (replace_col_combo self ∈ columns work →
       (λ after, DF.head 10 (DF.select (replace_col_combo self) after))
         <$> secondary_work (replace_entire_column self).2
       = Some shown)
    ∧ (replace_col_combo self ∉ columns work →
       replace_entire_column self
       = (Uncaught (KeyError (replace_col_combo self)), self)).
Proof.
  intros Hwork Hcol. unfold preview_replace_column.
  rewrite Hwork, decide_False by done. eexists. split; [reflexivity|].
  split; [done|]. split; [|split].
  - unfold DF.head, DF.select, DF.set_column_scalar, DF.len. cbn [rows].
    rewrite <- list_fmap_compose.
    rewrite (const_fmap _ (rows work)
               {[ replace_col_combo self := Str (replace_col_value self) ]}).
    + by rewrite take_replicate.
    + intros i r _. unfold compose. cbn beta. by rewrite lookup_insert_eq.
  - intros Hin. by rewrite (replace_entire_column_done _ _ Hwork Hcol Hin).
  - intros Hout. unfold replace_entire_column, DF.get_column.
    by rewrite Hwork, !decide_False.
Qed.

Lemma preview_shows_replacement_witness :
  ∃ shown,
    preview_replace_column Sample.tool_processed
    = (ShowInfo "Preview Replacement", Some shown)
    ∧ columns shown = ["Status"]
    ∧ rows shown = replicate (10 `min` 3) {[ "Status" := Str "Reviewed" ]}
    ∧ ("Status" ∈ columns Sample.processed →
       (λ after, DF.head 10 (DF.select "Status" after))
         <$> secondary_work (replace_entire_column Sample.tool_processed).2
       = Some shown)
    ∧ ("Status" ∉ columns Sample.processed →
       replace_entire_column Sample.tool_processed
       = (Uncaught (KeyError "Status"), Sample.tool_processed)).
Proof.
  exact (preview_shows_replacement Sample.tool_processed Sample.processed
           eq_refl ltac:(discriminate)).
Defined.

(* ===================================================================== *)
(** * Properties of the column selection                                  *)
(* ===================================================================== *)

(** What holds before a detection loop and is kept by each selection it
    makes holds after the loop. *)
Lemma detect_columns_ind (P : app → Prop) (keywords : list string)
    (select : string → app → app) (found : app → bool) (cols : list string)
    (self : app) :
  P self →
  (∀ col s, P s → has_keyword keywords col = true → P (select col s)) →
  P (detect_columns keywords select found cols self).
Proof.
  intros Hself Hselect. revert self Hself.
  induction cols as [|col rest IH]; intros self Hself; [done|].
  cbn [detect_columns].
  destruct (has_keyword keywords col) eqn:Hcol.
  - destruct (found (select col self)); [by apply Hselect|].
    by apply IH, Hselect.
  - destruct (found self); [done|]. by apply IH.
Qed.

Lemma selections_ok_add_front (selected : string) (self : app) :
  selections_ok self → selections_ok (on_target_primary_selected selected self).
Proof.
  intros (Ht & Hr & Het & Her). unfold on_target_primary_selected.
  case_decide as Hsel; [|done]. destruct Hsel as [Hne Hnew].
  unfold selections_ok. cbn [set_selections selected_target_columns
                              selected_replace_columns].
  split; [by constructor|]. split; [done|]. split; [|done].
  apply not_elem_of_cons. by split.
Qed.

Lemma NoDup_snoc_new (l : list string) (x : string) :
  NoDup l → x ∉ l → NoDup (l ++ [x]).
Proof.
  intros Hl Hx. apply NoDup_app. split; [done|]. split; [|apply NoDup_singleton].
  intros y Hy ->%list_elem_of_singleton. done.
Qed.

Lemma not_elem_of_snoc (l : list string) (x y : string) :
  y ∉ l → y ≠ x → y ∉ l ++ [x].
Proof.
  intros Hl Hx [?| ->%list_elem_of_singleton]%elem_of_app; done.
Qed.

Lemma selections_ok_add_target (selected : string) (self : app) :
  selections_ok self → selections_ok (add_target_column selected self).
Proof.
  intros (Ht & Hr & Het & Her). unfold add_target_column.
  case_decide as Hsel; [|done]. destruct Hsel as [Hne Hnew].
  unfold selections_ok. cbn [set_selections selected_target_columns
                              selected_replace_columns].
  split; [by apply NoDup_snoc_new|]. split; [done|]. split; [|done].
  apply not_elem_of_snoc; [done|]. by intros <-.
Qed.

Lemma selections_ok_add_replace (selected : string) (self : app) :
  selections_ok self → selections_ok (add_replace_column selected self).
Proof.
  intros (Ht & Hr & Het & Her). unfold add_replace_column.
  case_decide as Hsel; [|done]. destruct Hsel as [Hne Hnew].
  unfold selections_ok. cbn [set_selections selected_target_columns
                              selected_replace_columns].
  split; [done|]. split; [by apply NoDup_snoc_new|]. split; [done|].
  apply not_elem_of_snoc; [done|]. by intros <-.
Qed.

Lemma selections_ok_remove_target (selection : list nat) (self : app) :
  selections_ok self → selections_ok (remove_target_from_listbox selection self).
Proof.
  intros (Ht & Hr & Het & Her). unfold remove_target_from_listbox.
  destruct selection as [|index ?]; [done|]. case_decide; [|done].
  unfold selections_ok. cbn [set_selections selected_target_columns
                              selected_replace_columns].
  split; [by eapply sublist_NoDup, sublist_delete|].
  split; [done|]. split; [|done].
  intros Hin. apply Het. eapply elem_of_sublist; [exact Hin|].
  apply sublist_delete.
Qed.

Lemma selections_ok_remove_replace (selection : list nat) (self : app) :
  selections_ok self → selections_ok (remove_replace_from_listbox selection self).
Proof.
  intros (Ht & Hr & Het & Her). unfold remove_replace_from_listbox.
  destruct selection as [|index ?]; [done|]. case_decide; [|done].
  unfold selections_ok. cbn [set_selections selected_target_columns
                              selected_replace_columns].
  split; [done|]. split; [by eapply sublist_NoDup, sublist_delete|].
  split; [done|].
  intros Hin. apply Her. eapply elem_of_sublist; [exact Hin|].
  apply sublist_delete.
Qed.

Lemma selections_ok_clear (self : app) : selections_ok (clear_all_selections self).
Proof.
  unfold selections_ok, clear_all_selections.
  cbn [set_selections selected_target_columns selected_replace_columns].
  repeat split; try apply NoDup_nil_2; apply not_elem_of_nil.
Qed.

Lemma selections_ok_reference (selected : string) (self : app) :
  selections_ok self → selections_ok (on_reference_primary_selected selected self).
Proof. unfold on_reference_primary_selected. by case_decide. Qed.

Lemma selections_ok_data_source (selected : string) (self : app) :
  selections_ok self → selections_ok (on_data_source_selected selected self).
Proof. unfold on_data_source_selected. by case_decide. Qed.

Lemma selections_ok_auto_detect (self : app) :
  selections_ok self → selections_ok (auto_detect_columns self).2.
Proof.
  intros Hok. unfold auto_detect_columns.
  destruct (master_df self) as [master|]; [|done].
  destruct (secondary_df self) as [target|]; [|done]. cbn [snd].
  apply detect_columns_ind; [|by auto using selections_ok_add_replace].
  apply detect_columns_ind; [|by auto using selections_ok_data_source].
  apply detect_columns_ind; [|by auto using selections_ok_add_front].
  apply detect_columns_ind; [|by auto using selections_ok_reference].
  apply selections_ok_clear.
Qed.

(** X14.  The selection lists never hold a label twice, nor the empty
    label: starting from a state where this is so, as the initial state
    with its empty lists, it is still so after any sequence of actions on
    the mapping tab, Auto-Detect included. *)
Theorem selections_stay_duplicate_free (self : app) (events : list selection_event) :
  selections_ok self → selections_ok (foldl handle self events).
Proof.
  revert self. induction events as [|event events IH]; intros self Hok; [done|].
  cbn [foldl]. apply IH. destruct event; cbn [handle];
    auto using selections_ok_reference, selections_ok_data_source,
      selections_ok_add_front, selections_ok_add_target,
      selections_ok_add_replace, selections_ok_remove_target,
      selections_ok_remove_replace, selections_ok_clear,
      selections_ok_auto_detect.
Qed.

Lemma selections_stay_duplicate_free_witness :
  selections_ok
    (foldl handle Sample.tool_loaded
       [ AutoDetectPressed; TargetColumnAdded "Status";
         TargetColumnAdded "Status"; ReplaceColumnAdded "";
         TargetPrimaryAdded "EmployeeID"; ReplaceDoubleClicked [0%nat];
         ReplaceColumnAdded "Status" ]).
Proof.
  apply (selections_stay_duplicate_free Sample.tool_loaded).
  unfold selections_ok. cbn [Sample.tool_loaded selected_target_columns
                             selected_replace_columns].
  repeat split; try apply NoDup_nil_2; apply not_elem_of_nil.
Defined.

Lemma has_keyword_nonempty (col : string) :
  has_keyword name_keywords col = true ∨ has_keyword id_keywords col = true →
  col ≠ "".
Proof. intros Hcol ->. vm_compute in Hcol. by destruct Hcol. Qed.

(** The loop for the reference primary column stops at the first label
    with a name keyword. *)
Lemma detect_reference_primary (cols : list string) (self : app) :
  selected_reference_primary self = "" →
  detect_columns name_keywords on_reference_primary_selected
    (λ self, bool_decide (selected_reference_primary self ≠ "")) cols self
  = from_option (λ col, on_reference_primary_selected col self) self
      (head (filter (λ col, has_keyword name_keywords col) cols)).
Proof.
  intros Hnone. induction cols as [|col rest IH]; [done|].
  cbn [detect_columns]. rewrite filter_cons.
  destruct (has_keyword name_keywords col) eqn:Hcol; cbn beta.
  - assert (col ≠ "") as Hne by (apply has_keyword_nonempty; auto).
    rewrite decide_True by done. cbn [head from_option].
    rewrite bool_decide_eq_true_2; [done|].
    unfold on_reference_primary_selected. by rewrite decide_False.
  - rewrite decide_False by (by intros []).
    rewrite Hnone, bool_decide_eq_false_2 by auto. apply IH.
Qed.

Lemma detect_data_source (cols : list string) (self : app) :
  selected_data_source self = "" →
  detect_columns id_keywords on_data_source_selected
    (λ self, bool_decide (selected_data_source self ≠ "")) cols self
  = from_option (λ col, on_data_source_selected col self) self
      (head (filter (λ col, has_keyword id_keywords col) cols)).
Proof.
  intros Hnone. induction cols as [|col rest IH]; [done|].
  cbn [detect_columns]. rewrite filter_cons.
  destruct (has_keyword id_keywords col) eqn:Hcol; cbn beta.
  - assert (col ≠ "") as Hne by (apply has_keyword_nonempty; auto).
    rewrite decide_True by done. cbn [head from_option].
    rewrite bool_decide_eq_true_2; [done|].
    unfold on_data_source_selected. by rewrite decide_False.
  - rewrite decide_False by (by intros []).
    rewrite Hnone, bool_decide_eq_false_2 by auto. apply IH.
Qed.

Lemma detect_target_primary (cols : list string) (self : app) :
  selected_target_columns self = [] →
  detect_columns name_keywords on_target_primary_selected
    (λ self, bool_decide (selected_target_columns self ≠ [])) cols self
  = from_option (λ col, on_target_primary_selected col self) self
      (head (filter (λ col, has_keyword name_keywords col) cols)).
Proof.
  intros Hnone. induction cols as [|col rest IH]; [done|].
  cbn [detect_columns]. rewrite filter_cons.
  destruct (has_keyword name_keywords col) eqn:Hcol; cbn beta.
  - assert (col ≠ "") as Hne by (apply has_keyword_nonempty; auto).
    rewrite decide_True by done. cbn [head from_option].
    rewrite bool_decide_eq_true_2; [done|].
    unfold on_target_primary_selected. rewrite Hnone.
    by rewrite decide_True by (split; [done|apply not_elem_of_nil]).
  - rewrite decide_False by (by intros []).
    rewrite Hnone, bool_decide_eq_false_2 by auto. apply IH.
Qed.

(** The loop for the replace columns has no outer [break]: it adds every
    label with an id keyword. *)
Lemma detect_replace_columns (cols : list string) (self : app) :
  NoDup cols →
  (∀ col, col ∈ cols → col ∉ selected_replace_columns self) →
  detect_columns id_keywords add_replace_column (λ _, false) cols self
  = set_selections (selected_reference_primary self) (selected_target_columns self)
      (selected_replace_columns self
       ++ filter (λ col, has_keyword id_keywords col) cols)
      (selected_data_source self) self
  ∨ (filter (λ col, has_keyword id_keywords col) cols = []
     ∧ detect_columns id_keywords add_replace_column (λ _, false) cols self
       = self).
Proof.
  intros Hdup. revert self. induction Hdup as [|col rest Hcol Hdup IH];
    intros self Hnew; [by right|].
  cbn [detect_columns]. rewrite filter_cons.
  destruct (has_keyword id_keywords col) eqn:Hid.
  - left. rewrite decide_True by done.
    assert (col ≠ "") as Hne by (apply has_keyword_nonempty; auto).
    assert (add_replace_column col self
            = set_selections (selected_reference_primary self)
                (selected_target_columns self)
                (selected_replace_columns self ++ [col])
                (selected_data_source self) self) as ->.
    { unfold add_replace_column.
      by rewrite decide_True by (split; [done|apply Hnew; by left]). }
    match goal with
    | |- detect_columns _ _ _ _ ?s = _ => destruct (IH s) as [->|[Hnil ->]]
    end.
    + cbn [selected_replace_columns set_selections]. intros c Hc.
      apply not_elem_of_snoc; [apply Hnew; by right|]. by intros ->.
    + cbn [selected_reference_primary selected_target_columns
           selected_replace_columns selected_data_source set_selections].
      by rewrite <- (assoc_L (++)).
    + rewrite Hnil. done.
  - rewrite decide_False by (by intros []).
    destruct (IH self) as [->|[Hnil ->]]; [|by left|by right].
    intros c Hc. apply Hnew. by right.
Qed.

(** The selections after Auto-Detect. *)
Lemma auto_detect_columns_selections (self : app) (master target : DataFrame string) :
  master_df self = Some master →
  secondary_df self = Some target →
  NoDup (columns target) →
  auto_detect_columns self
  = (None,
     set_selections
       (default "" (head (filter (λ col, has_keyword name_keywords col)
                            (columns master))))
       (take 1 (filter (λ col, has_keyword name_keywords col) (columns target)))
       (filter (λ col, has_keyword id_keywords col) (columns target))
       (default "" (head (filter (λ col, has_keyword id_keywords col)
                            (columns master))))
       self).
Proof.
  intros Hmaster Htarget Hdup. unfold auto_detect_columns.
  rewrite Hmaster, Htarget. f_equal.
  rewrite detect_reference_primary by done.
  set (names := filter (λ col, has_keyword name_keywords col) (columns master)).
  set (s1 := from_option (λ col, on_reference_primary_selected col _) _ _).
  assert (s1 = set_selections (default "" (head names)) [] [] "" self) as ->.
  { subst s1. destruct names as [|col ?] eqn:Hnames; [done|].
    cbn [head from_option default]. unfold on_reference_primary_selected.
    rewrite decide_False; [done|].
    apply has_keyword_nonempty. left.
    assert (col ∈ names) as Hin by (rewrite Hnames; by left).
    apply list_elem_of_filter in Hin as [Hcol _]. by apply Is_true_eq_true. }
  rewrite detect_target_primary by done.
  set (tnames := filter (λ col, has_keyword name_keywords col) (columns target)).
  set (s2 := from_option (λ col, on_target_primary_selected col _) _ _).
  assert (s2 = set_selections (default "" (head names)) (take 1 tnames) [] "" self)
    as ->.
  { subst s2. destruct tnames as [|col ?] eqn:Htnames; [done|].
    cbn [head from_option take]. unfold on_target_primary_selected.
    cbn [selected_target_columns set_selections].
    rewrite decide_True; [done|]. split; [|apply not_elem_of_nil].
    apply has_keyword_nonempty. left.
    assert (col ∈ tnames) as Hin by (rewrite Htnames; by left).
    apply list_elem_of_filter in Hin as [Hcol _]. by apply Is_true_eq_true. }
  rewrite detect_data_source by done.
  set (ids := filter (λ col, has_keyword id_keywords col) (columns master)).
  set (s3 := from_option (λ col, on_data_source_selected col _) _ _).
  assert (s3 = set_selections (default "" (head names)) (take 1 tnames) []
                 (default "" (head ids)) self) as ->.
  { subst s3. destruct ids as [|col ?] eqn:Hids; [done|].
    cbn [head from_option default]. unfold on_data_source_selected.
    rewrite decide_False; [done|].
    apply has_keyword_nonempty. right.
    assert (col ∈ ids) as Hin by (rewrite Hids; by left).
    apply list_elem_of_filter in Hin as [Hcol _]. by apply Is_true_eq_true. }
  match goal with
  | |- detect_columns _ _ _ _ ?s = _ =>
      destruct (detect_replace_columns (columns target) s Hdup) as [->|[-> ->]]
  end; try done.
  intros col _. apply not_elem_of_nil.
Qed.

(** X15.  Auto-Detect with both files loaded shows no warning, forgets
    every earlier selection and selects, by the lower-cased labels: as
    reference primary column the first reference column containing a name
    keyword; as the only target column the first target column containing
    a name keyword; as data source the first reference column containing
    an id keyword; and as replace columns all target columns containing
    an id keyword, in the order of the table.  Where no column qualifies
    the selection stays empty. *)
Theorem auto_detect_columns_result (self : app) (master target : DataFrame string) :
  master_df self = Some master →
  secondary_df self = Some target →
  NoDup (columns target) →
  let detected := (auto_detect_columns self).2 in
  (auto_detect_columns self).1 = None
  ∧ selected_reference_primary detected
    = default "" (head (filter (λ col, has_keyword name_keywords col)
                          (columns master)))
  ∧ selected_target_columns detected
    = take 1 (filter (λ col, has_keyword name_keywords col) (columns target))
  ∧ selected_data_source detected
    = default "" (head (filter (λ col, has_keyword id_keywords col)
                          (columns master)))
  ∧ selected_replace_columns detected
    = filter (λ col, has_keyword id_keywords col) (columns target).
Proof.
  intros Hmaster Htarget Hdup detected. subst detected.
  by rewrite (auto_detect_columns_selections _ _ _ Hmaster Htarget Hdup).
Qed.

Lemma auto_detect_columns_result_witness :
  (auto_detect_columns Sample.tool_survey).1 = None
  ∧ selected_reference_primary (auto_detect_columns Sample.tool_survey).2 = "Name"
  ∧ selected_target_columns (auto_detect_columns Sample.tool_survey).2
    = ["Participant"]
  ∧ selected_data_source (auto_detect_columns Sample.tool_survey).2 = "ID"
  ∧ selected_replace_columns (auto_detect_columns Sample.tool_survey).2
    = ["Valid"; "Signum"].
Proof.
  assert (NoDup (columns Sample.survey)) as Hdup.
  { apply (bool_decide_unpack _). by vm_compute. }
  exact (auto_detect_columns_result Sample.tool_survey
           Sample.reference Sample.survey eq_refl eq_refl Hdup).
Defined.













Lemma string_app_assoc (a b c : string) : (a +:+ b) +:+ c = a +:+ (b +:+ c).
Proof.
  induction a as [|x a IH]; [done|].
  change (String x ((a +:+ b) +:+ c) = String x (a +:+ (b +:+ c))).
  by f_equal.
Qed.

Lemma startswith_app (p s : string) :
  Py.startswith p s = true ↔ ∃ t, s = p +:+ t.
Proof.
  revert s. induction p as [|a p IH]; intros s.
  { cbn. split; [by exists s|done]. }
  destruct s as [|b s]; cbn [Py.startswith].
  { split; [done|]. by intros (t & [=]). }
  rewrite andb_true_iff, bool_decide_eq_true, IH. split.
  - intros (-> & t & ->). by exists t.
  - intros (t & [= -> ->]). split; [done|]. by exists t.
Qed.

(** [p in s] holds exactly when [s] is [p] with something before and
    something after it. *)
Lemma contains_str_app (p s : string) :
  Py.contains_str p s = true ↔ ∃ a b, s = a +:+ p +:+ b.
Proof.
  induction s as [|c s IH].
  - cbn [Py.contains_str]. rewrite orb_false_r, startswith_app. split.
    + intros (t & ->). by exists "", t.
    + intros (a & b & Hs). destruct a; [by exists b|done].
  - cbn [Py.contains_str]. rewrite orb_true_iff, startswith_app, IH. split.
    + intros [(t & ->)|(a & b & ->)]; [by exists "", t|].
      by exists (String c a), b.
    + intros (a & b & Hs). destruct a as [|x a].
      * left. by exists b.
      * right. injection Hs as -> ->. by exists a, b.
Qed.

Lemma contains_str_trans (q p s : string) :
  Py.contains_str q p = true → Py.contains_str p s = true →
  Py.contains_str q s = true.
Proof.
  rewrite !contains_str_app. intros (a & b & ->) (a' & b' & ->).
  exists (a' +:+ a), (b +:+ b'). by rewrite !string_app_assoc.
Qed.

(** X18.  Three of the five name keywords and two of the six id keywords
    decide the detection: a label contains a name keyword exactly when it
    contains [name], [naam] or [participant], and an id keyword exactly
    when it contains [id] or [signum], the other keywords containing one
    of these. *)
Theorem keyword_lists_redundant (col : string) :
  has_keyword name_keywords col = has_keyword ["name"; "naam"; "participant"] col
  ∧ has_keyword id_keywords col = has_keyword ["id"; "signum"] col.
Proof.
  unfold has_keyword, name_keywords, id_keywords. cbn [existsb].
  generalize (Py.lower col). intros s.
  assert (∀ q p, Py.contains_str q p = true →
                 Py.contains_str p s = true → Py.contains_str q s = true)
    as Htrans by (intros q p; apply contains_str_trans).
  pose proof (Htrans "name" "full name" eq_refl) as Hfull.
  pose proof (Htrans "name" "fullname" eq_refl) as Hfullname.
  pose proof (Htrans "id" "employee id" eq_refl) as Hemployee.
  pose proof (Htrans "id" "emp id" eq_refl) as Hemp.
  pose proof (Htrans "id" "userid" eq_refl) as Huserid.
  pose proof (Htrans "id" "user id" eq_refl) as Huser.
  destruct (Py.contains_str "name" s), (Py.contains_str "naam" s),
    (Py.contains_str "full name" s), (Py.contains_str "fullname" s),
    (Py.contains_str "participant" s), (Py.contains_str "id" s),
    (Py.contains_str "signum" s), (Py.contains_str "employee id" s),
    (Py.contains_str "emp id" s), (Py.contains_str "userid" s),
    (Py.contains_str "user id" s);
    cbn [orb]; split; try reflexivity;
    first [by discriminate Hfull | by discriminate Hfullname
          | by discriminate Hemployee | by discriminate Hemp
          | by discriminate Huserid | by discriminate Huser].
Qed.

(* ===================================================================== *)
(** * The columns of the working table                                    *)
(* ===================================================================== *)

Lemma add_columns_fresh (cols news : list string) :
  NoDup news → (∀ c, c ∈ news → c ∉ cols) →
  foldl (λ cs c, DF.add_column c cs) cols news = cols ++ news.
Proof.
  intros Hdup. revert cols. induction Hdup as [|c news Hc Hdup IH];
    intros cols Hnew; [by rewrite app_nil_r|].
  cbn [foldl]. unfold DF.add_column at 2.
  rewrite decide_False by (apply Hnew; by left).
  rewrite IH; [by rewrite <- (assoc_L (++))|].
  intros c' Hc' [Hin| ->%list_elem_of_singleton]%elem_of_app; [|done].
  by apply (Hnew c'); [right|].
Qed.

Lemma add_clean_targets_columns (target_columns : list string) (i : nat)
    (work work' : DataFrame string) :
  add_clean_targets i target_columns work = (work', None) →
  columns work'
  = foldl (λ cs c, DF.add_column c cs) (columns work)
      (clean_target <$> seq i (length target_columns)).
Proof.
  revert i work. induction target_columns as [|c cols IH]; intros i work.
  { by intros [= <-]. }
  cbn [add_clean_targets]. unfold DF.with_clean_column.
  case_decide; [|done]. intros Hrest%IH. by rewrite Hrest.
Qed.

Lemma clean_target_inj : Inj (=) (=) clean_target.
Proof.
  intros i j Hij. unfold clean_target in Hij.
  by apply String.app_inj, pretty_nat_inj in Hij.
Qed.

Lemma filter_all {A} (P : A → Prop) `{∀ x, Decision (P x)} (l : list A) :
  Forall P l → filter P l = l.
Proof.
  induction 1 as [|x l Hx Hl IH]; [done|].
  by rewrite filter_cons, decide_True, IH.
Qed.

Lemma filter_none {A} (P : A → Prop) `{∀ x, Decision (P x)} (l : list A) :
  Forall (λ x, ¬ P x) l → filter P l = [].
Proof.
  induction 1 as [|x l Hx Hl IH]; [done|].
  by rewrite filter_cons, decide_False, IH.
Qed.

(** X19.  The structure is preserved.  When no label of the target table
    is the name of a tracking column or of a temporary key column, the
    working table a completed run leaves has the target's columns in
    their order, followed by the four tracking columns; the temporary
    columns are gone. *)
Theorem completed_run_columns `{Difflib} (self self' : app) (st : stats)
    (total : nat) (pct : option (Q * Q * Q)) (target : DataFrame string) :
  process_data self = (Completed st total pct, self') →
  preserve_structure self = true →
  secondary_df self = Some target →
  Forall (λ c, (c ∉ tracking_columns)
               ∧ (c ∉ cols_to_drop (selected_target_columns self)))
         (columns target) →
  columns <$> secondary_work self' = Some (columns target ++ tracking_columns).
Proof.
  intros Hrun Hpreserve Htarget Hfresh.
  apply process_data_completed in Hrun
    as (master & target' & master_work & work & _ & Htarget' & _ & _ & _ & _ & _
        & Hwork & Hloop).
  rewrite Htarget in Htarget'. injection Htarget' as <-.
  rewrite Hpreserve in Hloop. destruct Hloop as (rs & _ & -> & _).
  cbn [set_secondary_work secondary_work fmap option_fmap option_map].
  f_equal. unfold DF.drop. cbn [columns].
  change (columns (add_tracking_columns work))
    with (foldl (λ cs c, DF.add_column c cs) (columns work) tracking_columns).
  rewrite (add_clean_targets_columns _ _ _ _ Hwork).
  rewrite Forall_forall in Hfresh.
  set (temps := clean_target <$> seq 0 (length (selected_target_columns self))).
  assert (∀ c, c ∈ temps → c ∈ cols_to_drop (selected_target_columns self))
    as Htemps by (intros c Hc; unfold cols_to_drop; by right).
  rewrite (add_columns_fresh (columns target) temps).
  - rewrite (add_columns_fresh _ tracking_columns).
    + rewrite !filter_app.
      rewrite (filter_all _ (columns target)), (filter_none _ temps),
        (filter_all _ tracking_columns); [by rewrite app_nil_r| | |].
      * apply Forall_forall. intros c Hc. by apply tracking_not_dropped.
      * apply Forall_forall. intros c Hc. by auto.
      * apply Forall_forall. intros c Hc. by destruct (Hfresh c Hc).
    + apply (bool_decide_unpack _). by vm_compute.
    + intros c Hc [Hin|Hin]%elem_of_app.
      * by destruct (Hfresh c Hin) as [Hfree _].
      * by apply (tracking_not_dropped (selected_target_columns self) c), Htemps.
  - apply NoDup_fmap_2; [apply clean_target_inj|apply NoDup_seq].
  - intros c Hc Hin. destruct (Hfresh c Hin) as [_ Hkept]. by apply Hkept, Htemps.
Qed.

Lemma completed_run_columns_witness :
  columns <$> secondary_work
                (process_data (H := Sample.no_close_matches) Sample.tool).2
  = Some (["FullName"; "EmployeeID"; "Status"] ++ tracking_columns).
Proof.
  assert ((process_data (H := Sample.no_close_matches) Sample.tool).1
          = Completed (mkStats 3 0 0) 3 (Some (300 # 3, 0 # 3, 0 # 3))) as Hrun
    by (by vm_compute).
  assert (Forall (λ c, (c ∉ tracking_columns)
                       ∧ (c ∉ cols_to_drop (selected_target_columns Sample.tool)))
                 (columns Sample.target)) as Hfresh.
  { apply (bool_decide_unpack _). by vm_compute. }
  exact (completed_run_columns (H := Sample.no_close_matches) Sample.tool
           _ _ _ _ Sample.target (run_of_outcome _ _ Hrun) eq_refl eq_refl Hfresh).
Defined.

(* ===================================================================== *)
(** * Blank rows and interrupted runs                                     *)
(* ===================================================================== *)

Lemma collect_matches_blank `{Difflib} (self : app) (master_work : DataFrame string)
    (reference_primary data_source : string) (i : nat)
    (target_columns : list string) (row : gmap string string) :
  Forall (λ c, from_option (λ v, Py.strip v = "") True (row !! c)) target_columns →
  collect_matches self master_work reference_primary data_source
    i target_columns row = Ok [].
Proof.
  intros Hblank. revert i. induction Hblank as [|c cols Hc Hcols IH]; intros i;
    [done|].
  cbn [collect_matches]. rewrite IH. unfold match_column.
  destruct (row !! c) as [v|]; [|done]. cbn [from_option] in Hc.
  by rewrite decide_True.
Qed.

(** X20.  A row all of whose target cells are missing or blank is
    labelled REVIEW and counted as unmatched, whatever the settings and
    the reference table; no other cell of the row is written. *)
Theorem blank_row_is_review `{Difflib} (self : app) (master_work : DataFrame string)
    (work_columns : list string) (row : gmap string string)
    (rest : list (gmap string string)) (st : stats) :
  Forall (λ c, from_option (λ v, Py.strip v = "") True (row !! c))
         (selected_target_columns self) →
  process_rows self master_work work_columns (row :: rest) st
  = let later :=
      process_rows self master_work work_columns rest
        (mkStats (exact_matches st) (fuzzy_matches st) (S (no_matches st))) in
    (<["Match_Type" := Str "REVIEW"]> (Str <$> row) :: later.1.1,
     later.1.2, later.2).
Proof.
  intros Hblank.
  by rewrite (process_rows_cons _ _ _ _ _ _ _
                (collect_matches_blank _ _ _ _ _ _ _ Hblank)).
Qed.

Lemma blank_row_is_review_witness :
  process_rows (H := Sample.no_close_matches) Sample.tool Sample.master_work
    ["FullName"; "EmployeeID"; "Match_Type"]
    [ {[ "FullName" := "   "; "EmployeeID" := "7" ]} ] (mkStats 0 0 0)
  = ([ {[ "FullName" := Str "   "; "EmployeeID" := Str "7";
          "Match_Type" := Str "REVIEW" ]} ],
     mkStats 0 0 1, None).
Proof.
  assert (Forall (λ c, from_option (λ v, Py.strip v = "") True
                         (({[ "FullName" := "   "; "EmployeeID" := "7" ]}
                           : gmap string string) !! c))
                 (selected_target_columns Sample.tool)) as Hblank.
  { apply Forall_cons. split; [|constructor]. by vm_compute. }
  rewrite (blank_row_is_review (H := Sample.no_close_matches) Sample.tool
             Sample.master_work ["FullName"; "EmployeeID"; "Match_Type"]
             _ [] (mkStats 0 0 0) Hblank).
  cbv zeta. cbn [process_rows fst snd exact_matches fuzzy_matches no_matches].
  reflexivity.
Defined.






(* ===================================================================== *)
(** * Letter case                                                         *)
(* ===================================================================== *)

Lemma isspace_lower_char c :
  Bool.eqb (Py.isspace (Py.lower_char c)) (Py.isspace c) = true.
Proof. by_cases_on_char c. Qed.

Lemma lower_char_idem c :
  Ascii.eqb (Py.lower_char (Py.lower_char c)) (Py.lower_char c) = true.
Proof. by_cases_on_char c. Qed.

Lemma lower_idem s : Py.lower (Py.lower s) = Py.lower s.
Proof.
  induction s as [|c s IH]; [done|]. cbn [Py.lower]. rewrite IH.
  by rewrite (proj1 (Ascii.eqb_eq _ _) (lower_char_idem c)).
Qed.

Lemma lower_lstrip s : Py.lower (Py.lstrip s) = Py.lstrip (Py.lower s).
Proof.
  induction s as [|c s IH]; [done|]. cbn [Py.lower Py.lstrip].
  rewrite (Bool.eqb_prop _ _ (isspace_lower_char c)).
  by destruct (Py.isspace c).
Qed.

Lemma lower_rstrip s : Py.lower (Py.rstrip s) = Py.rstrip (Py.lower s).
Proof.
  induction s as [|c s IH]; [done|]. cbn [Py.lower]. rewrite !rstrip_cons, <- IH.
  rewrite (Bool.eqb_prop _ _ (isspace_lower_char c)).
  destruct (Py.rstrip s) as [|a r]; cbn [Py.lower].
  - rewrite !bool_decide_eq_true_2 by done. by destruct (Py.isspace c).
  - rewrite !bool_decide_eq_false_2 by done. by rewrite andb_false_r.
Qed.

Lemma lower_sub_ws_runs b s :
  Py.lower (Py.sub_ws_runs b s) = Py.sub_ws_runs b (Py.lower s).
Proof.
  revert b. induction s as [|c s IH]; intros b; [done|].
  cbn [Py.lower]. rewrite !sub_ws_runs_cons.
  rewrite (Bool.eqb_prop _ _ (isspace_lower_char c)).
  destruct (Py.isspace c); [destruct b|]; cbn [Py.lower]; by rewrite IH.
Qed.

Lemma clean_name_lower (s : string) :
  clean_name (Some (Py.lower s)) = clean_name (Some s).
Proof.
  unfold clean_name, Py.strip.
  by rewrite <- lower_rstrip, <- lower_lstrip, <- lower_sub_ws_runs, lower_idem.
Qed.

(** X22.  Matching ignores letter case: two values that differ only in
    the case of their letters have the same normalized key, and the
    matcher returns the same result for both. *)
Theorem matching_ignores_case `{Difflib} (self : app)
    (master_work : DataFrame string) (reference_primary data_source : string)
    (value1 value2 : string) (exact_only fuzzy_only : bool) :
  Py.lower value1 = Py.lower value2 →
  clean_name (Some value1) = clean_name (Some value2)
  ∧ find_match_for_value self value1 master_work reference_primary data_source
      exact_only fuzzy_only
    = find_match_for_value self value2 master_work reference_primary data_source
        exact_only fuzzy_only.
Proof.
  intros Hcase.
  assert (clean_name (Some value1) = clean_name (Some value2)) as Hkey.
  { by rewrite <- (clean_name_lower value1), Hcase, clean_name_lower. }
  split; [done|]. unfold find_match_for_value. by rewrite Hkey.
Qed.

Lemma matching_ignores_case_witness :
  clean_name (Some "JOHN Smith") = clean_name (Some "john smith")
  ∧ find_match_for_value (H := Sample.no_close_matches) Sample.tool
      "JOHN Smith" Sample.master_work "Name" "ID" false false
    = find_match_for_value (H := Sample.no_close_matches) Sample.tool
        "john smith" Sample.master_work "Name" "ID" false false.
Proof.
  apply (matching_ignores_case (H := Sample.no_close_matches)).
  by vm_compute.
Defined.

(* ===================================================================== *)
(** * Sub-values of a multi-valued field                                  *)
(* ===================================================================== *)

Lemma split_pieces_without_delimiter (d : ascii) (s x : string) :
  x ∈ Py.split d s → Py.contains d x = false.
Proof.
  revert x. induction s as [|c s IH]; intros x; cbn [Py.split].
  { by intros ->%list_elem_of_singleton. }
  case_decide as Hc.
  - intros [->|Hx]%elem_of_cons; [done|]. by apply IH.
  - destruct (Py.split d s) as [|y ys].
    + intros ->%list_elem_of_singleton. cbn [Py.contains].
      by rewrite decide_False.
    + intros [->|Hx]%elem_of_cons.
      * cbn [Py.contains]. rewrite decide_False by done. apply IH. by left.
      * apply IH. by right.
Qed.

Lemma contains_lstrip (d : ascii) (s : string) :
  Py.contains d s = false → Py.contains d (Py.lstrip s) = false.
Proof.
  induction s as [|c s IH]; [done|]. cbn [Py.lstrip].
  destruct (Py.isspace c); [|done]. cbn [Py.contains].
  case_decide; [done|]. apply IH.
Qed.

Lemma contains_rstrip (d : ascii) (s : string) :
  Py.contains d s = false → Py.contains d (Py.rstrip s) = false.
Proof.
  induction s as [|c s IH]; [done|]. rewrite rstrip_cons. cbn [Py.contains].
  case_decide; [done|]. intros Hs.
  destruct (Py.isspace c && bool_decide (Py.rstrip s = "")); [done|].
  cbn [Py.contains]. rewrite decide_False by done. by apply IH.
Qed.

Lemma lstrip_idem (s : string) : Py.lstrip (Py.lstrip s) = Py.lstrip s.
Proof.
  induction s as [|c s IH]; [done|]. cbn [Py.lstrip].
  destruct (Py.isspace c) eqn:Hc; [done|]. cbn [Py.lstrip]. by rewrite Hc.
Qed.

Lemma rstrip_idem (s : string) : Py.rstrip (Py.rstrip s) = Py.rstrip s.
Proof.
  induction s as [|c s IH]; [done|]. rewrite rstrip_cons.
  destruct (Py.isspace c && bool_decide (Py.rstrip s = "")) eqn:Hc; [done|].
  rewrite rstrip_cons, IH. by rewrite Hc.
Qed.

(** Stripping on the left does not uncover whitespace on the right. *)
Lemma rstrip_lstrip_fixed (s : string) :
  Py.rstrip s = s → Py.rstrip (Py.lstrip s) = Py.lstrip s.
Proof.
  induction s as [|c s IH]; [done|]. intros Hs. cbn [Py.lstrip].
  destruct (Py.isspace c); [|done]. apply IH.
  rewrite rstrip_cons in Hs.
  destruct (_ && _); [done|]. by injection Hs.
Qed.

Lemma strip_idem (s : string) : Py.strip (Py.strip s) = Py.strip s.
Proof.
  unfold Py.strip.
  by rewrite (rstrip_lstrip_fixed _ (rstrip_idem s)), lstrip_idem.
Qed.

(** X23.  The sub-values a multi-valued field is split into are clean:
    none is empty, none has whitespace at either end, and none contains
    the delimiter. *)
Theorem sub_values_are_clean (d : ascii) (target_str : string) :
  Forall (λ v, v ≠ "" ∧ Py.strip v = v ∧ Py.contains d v = false)
         (split_values d target_str).
Proof.
  apply Forall_forall. intros v. unfold split_values.
  intros [Hv (x & -> & Hx)%list_elem_of_fmap]%list_elem_of_filter.
  split; [done|]. split; [apply strip_idem|].
  apply contains_lstrip, contains_rstrip.
  by eapply split_pieces_without_delimiter.
Qed.
